(** * RPyPCA9685: the register protocol of the PCA9685 PWM driver

    A shallow embedding of [src/RPyPCA9685.py].  Python integers are [Z],
    Python floats are binary64 primitive floats, the dictionaries returned by
    [REGISTERS], [MODE1_BITS] and [MODE2_BITS] are finite maps keyed by
    strings, exceptions are values of [exn], and the I2C master together with
    [time.sleep] is a world threaded through a small state-and-error monad
    that records every transaction in a trace. *)

From Stdlib Require Import ZArith Lia List String.
From Stdlib Require Import Floats.PrimFloat Floats.SpecFloat Floats.FloatOps.
From Stdlib Require Import Numbers.Cyclic.Int63.Uint63.
From stdpp Require Import gmap strings.

Local Open Scope Z_scope.

(** ** Module-level helpers (source lines 19-59) *)

(** [testBit]: [mask = 1 << offset; return int_type & mask].  The result is
    the masked integer, not a boolean. *)
Definition testBit (int_type offset : Z) : Z :=
  let mask := Z.shiftl 1 offset in
  Z.land int_type mask.

(** [_setBit]: [mask = 1 << offset; return int_type | mask]. *)
Definition _setBit (int_type offset : Z) : Z :=
  let mask := Z.shiftl 1 offset in
  Z.lor int_type mask.

(** [_clearBit]: [mask = ~(1 << offset); return int_type & mask]. *)
Definition _clearBit (int_type offset : Z) : Z :=
  let mask := Z.lnot (Z.shiftl 1 offset) in
  Z.land int_type mask.

(** [getByte]: [(int_type >> (8 * nth_byte)) & 0xff]. *)
Definition getByte (int_type nth_byte : Z) : Z :=
  Z.land (Z.shiftr int_type (8 * nth_byte)) 255.

(** Python truthiness of an integer: every non-zero integer is true. *)
Definition truthy (z : Z) : bool := negb (z =? 0).

(** ** Python float arithmetic on binary64 *)

(** [float(z)], exact for [|z| < 2^53], which covers every integer the
    driver converts. *)
Definition float_of_int (z : Z) : float :=
  if z <? 0 then PrimFloat.opp (PrimFloat.of_uint63 (Uint63.of_Z (- z)))
  else PrimFloat.of_uint63 (Uint63.of_Z z).

(** [int(f)]: truncation toward zero.  Python raises on NaN and on the
    infinities; they are sent to [0] here and never arise below. *)
Definition int_of_float (f : float) : Z :=
  match Prim2SF f with
  | S754_finite s m e =>
      let mag := if 0 <=? e then Z.shiftl (Z.pos m) e
                 else Z.shiftr (Z.pos m) (- e) in
      if s then - mag else mag
  | _ => 0
  end.

(** [a / b] on two integers: true division, correctly rounded.  For operands
    below [2^53] it is the binary64 quotient of the converted operands. *)
Definition truediv (a b : Z) : float :=
  PrimFloat.div (float_of_int a) (float_of_int b).

(** [f * z] and [f + z] with a float on the left and an integer on the
    right: the integer is converted first. *)
Definition fmul_int (f : float) (z : Z) : float :=
  PrimFloat.mul f (float_of_int z).

Definition fadd_int (f : float) (z : Z) : float :=
  PrimFloat.add f (float_of_int z).

(** ** Class constants (source lines 68-74) *)

Definition _PRESCALE : Z := 121.
Definition _PULSE_START : Z := 100.
Definition _PULSE_END_LOW : Z := 305.
Definition _PULSE_END_HIGH : Z := 509.

(** The right-hand side of line 165:
    [int((position - 1000) / (2000 - 1000)
         * (_PULSE_END_HIGH - _PULSE_END_LOW) + _PULSE_END_LOW)]. *)
Definition pulse_value (position : Z) : Z :=
  int_of_float
    (fadd_int
       (fmul_int (truediv (position - 1000) (2000 - 1000))
                 (_PULSE_END_HIGH - _PULSE_END_LOW))
       _PULSE_END_LOW).

(** Line 183: [center = int((_PULSE_END_HIGH + _PULSE_END_LOW) / 2.0)]. *)
Definition center : Z :=
  int_of_float
    (PrimFloat.div (float_of_int (_PULSE_END_HIGH + _PULSE_END_LOW)) 2%float).

(** ** The I2C master and the clock *)

(** The two message constructors of [quick2wire.i2c] the driver uses:
    [writing_bytes(addr, *bytes)] and [reading(addr, n_bytes)]. *)
Inductive message : Type :=
| writing_bytes (addr : Z) (bytes : list Z)
| reading (addr : Z) (n_bytes : nat).

(** What the outside world sees of the driver, in order: the bus being
    opened, each call of [master.transaction] with its messages, each call of
    [time.sleep] with its argument in seconds, and the bus being closed. *)
Inductive event : Type :=
| EvOpen (controller : Z)
| EvTransaction (msgs : list message)
| EvSleep (seconds : float)
| EvClose.

(** The transport is an external collaborator: anything that answers a
    transaction with one byte list per [reading] message. *)
Class I2CDevice (D : Type) : Type :=
  transact : D -> list message -> D * list (list Z).

Record world (D : Type) : Type := World { bus : D; trace : list event }.
Arguments World {D} _ _.
Arguments bus {D} _.
Arguments trace {D} _.

(** Exceptions.  The source raises the builtin [Exception] with a message;
    runtime errors of the interpreter carry the name of their class. *)
Inductive exn : Type := Exception (msg : string).

Definition InvalidChannel : exn :=
  Exception "servo_id must be in the range [0 .. 15]".
Definition InvalidPosition : exn :=
  Exception "position must be in the range [0 .. 3000]".
Definition TypeError : exn := Exception "TypeError".
Definition IndexError : exn := Exception "IndexError".

Inductive result (A : Type) : Type :=
| Ok (a : A)
| Raise (e : exn).
Arguments Ok {A} _.
Arguments Raise {A} _.

(** State-and-error monad: a computation runs in a world and either returns
    or raises, leaving the world as it was at that point. *)
Definition M (D A : Type) : Type := world D -> result A * world D.

Definition ret {D A} (a : A) : M D A := fun w => (Ok a, w).

Definition raise {D A} (e : exn) : M D A := fun w => (Raise e, w).

Definition bind {D A B} (m : M D A) (k : A -> M D B) : M D B :=
  fun w =>
    match m w with
    | (Ok a, w') => k a w'
    | (Raise e, w') => (Raise e, w')
    end.

Declare Scope py_scope.
Delimit Scope py_scope with py.
Notation "x <- m ;; k" := (bind m (fun x => k))
  (at level 100, m at next level, right associativity) : py_scope.
Notation "m ;; k" := (bind m (fun _ => k))
  (at level 100, right associativity) : py_scope.

Definition emit {D} (e : event) : M D unit :=
  fun w => (Ok tt, World (bus w) (trace w ++ [e])).

(** [I2CMaster(controller)]. *)
Definition I2CMaster {D} (controller : Z) : M D Z :=
  (emit (EvOpen controller) ;; ret controller)%py.

(** [master.transaction] applied to its messages: the list of the byte strings read. *)
Definition transaction {D} `{I2CDevice D} (msgs : list message)
  : M D (list (list Z)) :=
  fun w =>
    let (d, out) := transact (bus w) msgs in
    (Ok out, World d (trace w ++ [EvTransaction msgs])).

(** [master.close()]. *)
Definition close {D} : M D unit := emit EvClose.

(** [time.sleep(seconds)]. *)
Definition time_sleep {D} (seconds : float) : M D unit :=
  emit (EvSleep seconds).

(** [d.get(key)] on a dictionary.  A missing key gives [None], on which the
    message constructors raise [TypeError] before anything reaches the bus;
    the lookup raises it directly. *)
Definition dict_get {D} (d : gmap string Z) (key : string) : M D Z :=
  match d !! key with
  | Some v => ret v
  | None => raise TypeError
  end.

(** ** class PCA9685 *)

(** The instance attributes: [self.master] (the controller whose bus was
    opened) and [self.ADDRESS]. *)
Record pca9685 : Type := Self { master : Z; ADDRESS : Z }.

Module PCA9685.
Section Methods.
Context {D : Type} `{I2CDevice D}.
Local Open Scope string_scope.
Local Open Scope Z_scope.
Local Open Scope py_scope.

Definition REGISTERS : gmap string Z :=
  list_to_map
    [("mode1", 0x00); ("mode2", 0x01); ("subadr1", 0x02); ("subadr2", 0x03);
     ("subadr3", 0x04); ("allcalladr", 0x05); ("all_on_low", 0xfa);
     ("all_on_high", 0xfb); ("all_off_low", 0xfc); ("all_off_high", 0xfd);
     ("pre_scale", 0xfe); ("testmode", 0xff)].

Definition MODE1_BITS : gmap string Z :=
  list_to_map
    [("allcall", 0); ("sub3", 1); ("sub2", 2); ("sub1", 3); ("sleep", 4);
     ("ai", 5); ("extclk", 6); ("restart", 7)].

Definition MODE2_BITS : gmap string Z :=
  list_to_map
    [("oe0", 0); ("oe1", 1); ("outdrv", 2); ("och", 3); ("invrt", 4)].

(** Lines 116-122. *)
Definition _valid_servo (servo_id : Z) : M D unit :=
  if negb ((servo_id >=? 0) && (servo_id <=? 15))
  then raise InvalidChannel
  else ret tt.

(** Lines 124-154. *)
Definition SERVO_ON_LOW (servo_id : Z) : M D Z :=
  _valid_servo servo_id ;; ret (0x06 + 4 * servo_id).

Definition SERVO_ON_HIGH (servo_id : Z) : M D Z :=
  _valid_servo servo_id ;; ret (0x07 + 4 * servo_id).

Definition SERVO_OFF_LOW (servo_id : Z) : M D Z :=
  _valid_servo servo_id ;; ret (0x08 + 4 * servo_id).

Definition SERVO_OFF_HIGH (servo_id : Z) : M D Z :=
  _valid_servo servo_id ;; ret (0x09 + 4 * servo_id).

(** Lines 156-166.  The arguments of [transaction] are evaluated left to
    right, so [SERVO_OFF_LOW] is called before [SERVO_OFF_HIGH]; both
    messages go into one call of [transaction]. *)
Definition set_position (self : pca9685) (servo_id position : Z) : M D unit :=
  _valid_servo servo_id ;;
  if negb ((position >? 0) && (position <? 3000))
  then raise InvalidPosition
  else
    let value := pulse_value position in
    off_low <- SERVO_OFF_LOW servo_id ;;
    off_high <- SERVO_OFF_HIGH servo_id ;;
    transaction
      [writing_bytes (ADDRESS self) [off_low; getByte value 0];
       writing_bytes (ADDRESS self) [off_high; getByte value 1]] ;;
    ret tt.

(** Lines 199-200. *)
Definition _setRegister (self : pca9685) (register value : Z) : M D unit :=
  transaction [writing_bytes (ADDRESS self) [register; getByte value 0]] ;;
  ret tt.

(** Lines 202-203: the first byte of the first read, [...[0][0]]. *)
Definition _getRegister (self : pca9685) (register : Z) : M D Z :=
  out <- transaction
           [writing_bytes (ADDRESS self) [register]; reading (ADDRESS self) 1] ;;
  match out with
  | (b :: _) :: _ => ret b
  | _ => raise IndexError
  end.

(** Lines 205-207. *)
Definition _getBit (self : pca9685) (register bit : Z) : M D Z :=
  b <- _getRegister self register ;;
  ret (testBit b bit).

(** Lines 209-211.  In the body, [_setBit] is still the module-level
    function of line 30. *)
Definition _setBit (self : pca9685) (register bit : Z) : M D unit :=
  b <- _getRegister self register ;;
  _setRegister self register (_setBit b bit).

(** Lines 213-215, likewise with the [_clearBit] of line 41. *)
Definition _clearBit (self : pca9685) (register bit : Z) : M D unit :=
  b <- _getRegister self register ;;
  _setRegister self register (_clearBit b bit).

(** Lines 168-189. *)
Definition __init__ (controller address : Z) : M D pca9685 :=
  m <- I2CMaster controller ;;
  let self := Self m address in
  r <- dict_get REGISTERS "pre_scale" ;;
  _setRegister self r _PRESCALE ;;
  r <- dict_get REGISTERS "mode1" ;;
  b <- dict_get MODE1_BITS "allcall" ;;
  _clearBit self r b ;;
  r <- dict_get REGISTERS "all_on_low" ;;
  _setRegister self r (getByte _PULSE_START 0) ;;
  r <- dict_get REGISTERS "all_on_high" ;;
  _setRegister self r (getByte _PULSE_START 1) ;;
  let center := center in
  r <- dict_get REGISTERS "all_off_low" ;;
  _setRegister self r (getByte center 0) ;;
  r <- dict_get REGISTERS "all_off_high" ;;
  _setRegister self r (getByte center 1) ;;
  r <- dict_get REGISTERS "mode1" ;;
  b <- dict_get MODE1_BITS "sleep" ;;
  _clearBit self r b ;;
  time_sleep 0x1.999999999999ap-4 ;;
  r <- dict_get REGISTERS "mode1" ;;
  b <- dict_get MODE1_BITS "restart" ;;
  _setBit self r b ;;
  time_sleep 0x1.999999999999ap-4 ;;
  ret self.

(** Lines 191-197. *)
Definition __del__ (self : pca9685) : M D unit :=
  r <- dict_get REGISTERS "mode1" ;;
  b <- dict_get MODE1_BITS "sleep" ;;
  _setBit self r b ;;
  close.

End Methods.
End PCA9685.

(** ** A register-file device: the mock transport of the test plan *)

(** One PCA9685 on the bus, seen as its register file and the control
    register, which holds the register address last sent.  The first byte of
    a write message selects the register and the bytes after it are stored
    there (auto-increment is off, as after reset); a read returns the
    selected register, an unwritten register reading as [0].  The device
    address is not decoded. *)
Record chip : Type := Chip { regs : gmap Z Z; pointer : Z }.

Definition chip_read (c : chip) (register : Z) : Z :=
  default 0 (regs c !! register).

Definition chip_message (st : chip * list (list Z)) (m : message)
  : chip * list (list Z) :=
  let (c, out) := st in
  match m with
  | writing_bytes _ [] => (c, out)
  | writing_bytes _ (register :: data) =>
      (Chip (fold_left (fun g v => <[register := v]> g) data (regs c)) register,
       out)
  | reading _ n => (c, out ++ [replicate n (chip_read c (pointer c))])
  end.

#[export] Instance chip_device : I2CDevice chip :=
  fun c msgs => fold_left chip_message msgs (c, []).

(** A chip fresh out of reset, as far as the driver can tell: [mode1] holds
    its power-on value [0x11] (sleep and allcall set). *)
Definition chip_reset : chip := Chip {[ 0 := 17 ]} 0.

(** ** The spec's wording of the tick formula, for comparison *)

(** [round(n / d)] for [d > 0] on exact rationals, ties to the even
    neighbour as Python's [round] does. *)
Definition round_div (n d : Z) : Z :=
  let q := n / d in
  let r := n mod d in
  if 2 * r <? d then q
  else if d <? 2 * r then q + 1
  else if Z.even q then q else q + 1.

(** The spec's
    [round(PULSE_END_LOW + (position - 1000) / 1000 * (PULSE_END_HIGH - PULSE_END_LOW))]
    over the rationals, brought to the common denominator [1000]. *)
Definition spec_tick (position : Z) : Z :=
  round_div (_PULSE_END_LOW * 1000
             + (position - 1000) * (_PULSE_END_HIGH - _PULSE_END_LOW)) 1000.

(** The linear map cut down to an integer: what [int] makes of it. *)
Definition floor_tick (position : Z) : Z :=
  (_PULSE_END_LOW * 1000
   + (position - 1000) * (_PULSE_END_HIGH - _PULSE_END_LOW)) / 1000.

(** ** Vocabulary of the statements *)

(** The two messages [set_position] hands to [transaction]. *)
Definition off_messages (address servo_id value : Z) : list message :=
  [writing_bytes address [0x08 + 4 * servo_id; getByte value 0];
   writing_bytes address [0x09 + 4 * servo_id; getByte value 1]].

(** The transaction of [_getRegister] and that of [_setRegister]. *)
Definition read_messages (address register : Z) : list message :=
  [writing_bytes address [register]; reading address 1].

Definition write_messages (address register value : Z) : list message :=
  [writing_bytes address [register; value]].

(** The calls of [time.sleep] in a stretch of trace. *)
Definition is_sleep (e : event) : bool :=
  match e with
  | EvSleep _ => true
  | _ => false
  end.

(** The test of line 121, [servo_id >= 0 and servo_id <= 15]. *)
Definition valid_servo_b (servo_id : Z) : bool :=
  (servo_id >=? 0) && (servo_id <=? 15).

(** The world a test starts from: the chip after reset, nothing on the bus
    yet. *)
Definition world_reset : world chip := World chip_reset [].

(** The four registers of a channel and the method that computes each. *)
Inductive channel_kind : Type := on_low | on_high | off_low | off_high.

Definition channel_register {D : Type} `{I2CDevice D} (kind : channel_kind)
  : Z -> M D Z :=
  match kind with
  | on_low => PCA9685.SERVO_ON_LOW
  | on_high => PCA9685.SERVO_ON_HIGH
  | off_low => PCA9685.SERVO_OFF_LOW
  | off_high => PCA9685.SERVO_OFF_HIGH
  end.

(** Address and payload of a message, and the messages of an event. *)
Definition message_addr (m : message) : Z :=
  match m with
  | writing_bytes addr _ => addr
  | reading addr _ => addr
  end.

Definition message_bytes (m : message) : list Z :=
  match m with
  | writing_bytes _ bytes => bytes
  | reading _ _ => []
  end.

Definition event_messages (e : event) : list message :=
  match e with
  | EvTransaction msgs => msgs
  | _ => []
  end.

(** A message the I2C layer accepts for the device at [address]: sent there,
    every payload byte in [0..255]. *)
Definition message_ok (address : Z) (m : message) : bool :=
  (message_addr m =? address)
  && forallb (fun b => (0 <=? b) && (b <=? 255)) (message_bytes m).

Definition event_ok (address : Z) (e : event) : bool :=
  forallb (message_ok address) (event_messages e).

(** A reply in which [...[0][0]] does not exist: no read result, or an empty
    first one. *)
Definition no_first_byte (out : list (list Z)) : Prop :=
  match out with
  | (_ :: _) :: _ => False
  | _ => True
  end.

(** A transport that answers every transaction with no data at all. *)
Inductive silent : Type := Silent.

#[export] Instance silent_device : I2CDevice silent :=
  fun d _ => (d, []).

(** * Properties *)

(** ** Bits and bytes *)

Lemma shiftl_1_testbit (o i : Z) :
  0 <= o -> 0 <= i -> Z.testbit (Z.shiftl 1 o) i = (i =? o).
Proof.
  intros Ho Hi. rewrite Z.shiftl_1_l, Z.pow2_bits_eqb by assumption.
  apply Z.eqb_sym.
Qed.

Lemma _setBit_testbit (v o i : Z) :
  0 <= o -> 0 <= i ->
  Z.testbit (_setBit v o) i = Z.testbit v i || (i =? o).
Proof.
  intros Ho Hi. unfold _setBit. cbv zeta.
  rewrite Z.lor_spec, shiftl_1_testbit by assumption. reflexivity.
Qed.

Lemma _clearBit_testbit (v o i : Z) :
  0 <= o -> 0 <= i ->
  Z.testbit (_clearBit v o) i = Z.testbit v i && negb (i =? o).
Proof.
  intros Ho Hi. unfold _clearBit. cbv zeta.
  rewrite Z.land_spec, Z.lnot_spec, shiftl_1_testbit by assumption.
  reflexivity.
Qed.

Lemma testBit_testbit (v o i : Z) :
  0 <= o -> 0 <= i ->
  Z.testbit (testBit v o) i = Z.testbit v i && (i =? o).
Proof.
  intros Ho Hi. unfold testBit. cbv zeta.
  rewrite Z.land_spec, shiftl_1_testbit by assumption. reflexivity.
Qed.

(** [testBit] answers with the mask itself when the bit is set and with [0]
    when it is clear. *)
Lemma testBit_value (v o : Z) :
  0 <= o ->
  testBit v o = if Z.testbit v o then Z.shiftl 1 o else 0.
Proof.
  intros Ho. apply Z.bits_inj'. intros i Hi.
  rewrite testBit_testbit by assumption.
  destruct (Z.eqb_spec i o) as [-> | Hne].
  - destruct (Z.testbit v o); cbn [andb].
    + rewrite shiftl_1_testbit, Z.eqb_refl by assumption. reflexivity.
    + rewrite Z.bits_0. reflexivity.
  - rewrite andb_false_r.
    destruct (Z.testbit v o).
    + rewrite shiftl_1_testbit by assumption.
      symmetry. apply Z.eqb_neq. assumption.
    + rewrite Z.bits_0. reflexivity.
Qed.

Lemma truthy_testBit (v o : Z) :
  0 <= o -> truthy (testBit v o) = Z.testbit v o.
Proof.
  intros Ho. rewrite testBit_value by assumption. unfold truthy.
  destruct (Z.testbit v o); [| reflexivity].
  rewrite Z.shiftl_1_l.
  destruct (Z.eqb_spec (2 ^ o) 0) as [E | E]; [| reflexivity].
  pose proof (Z.pow_pos_nonneg 2 o). lia.
Qed.

Lemma land_255_mod (x : Z) : Z.land x 255 = x mod 256.
Proof. change 255 with (Z.ones 8). rewrite Z.land_ones by lia. reflexivity. Qed.

Lemma getByte_div_mod (v n : Z) :
  0 <= n -> getByte v n = (v / 2 ^ (8 * n)) mod 256.
Proof.
  intros Hn. unfold getByte.
  rewrite land_255_mod, Z.shiftr_div_pow2 by lia. reflexivity.
Qed.

Lemma getByte_range (v n : Z) : 0 <= getByte v n < 256.
Proof.
  unfold getByte. rewrite land_255_mod. apply Z.mod_pos_bound. lia.
Qed.

(** C8: for every non-negative [v] and every offset [o] in [0..7], the bit
    [o] of [_setBit v o] tests true and that of [_clearBit v o] tests false
    (in Python's truth value of the integer [testBit] returns, which is the
    mask [1 << o] resp. [0]), and both results agree with [v] on every bit
    other than [o]. *)
Theorem C8_set_clear_test_bit (v o : Z) :
  0 <= v -> 0 <= o <= 7 ->
  truthy (testBit (_setBit v o) o) = true /\
  truthy (testBit (_clearBit v o) o) = false /\
  testBit (_setBit v o) o = Z.shiftl 1 o /\
  testBit (_clearBit v o) o = 0 /\
  (forall i, 0 <= i -> i <> o ->
     Z.testbit (_setBit v o) i = Z.testbit v i /\
     Z.testbit (_clearBit v o) i = Z.testbit v i).
Proof.
  intros _ [Ho _].
  assert (Hs : Z.testbit (_setBit v o) o = true).
  { rewrite _setBit_testbit, Z.eqb_refl by assumption. apply orb_true_r. }
  assert (Hc : Z.testbit (_clearBit v o) o = false).
  { rewrite _clearBit_testbit, Z.eqb_refl by assumption. apply andb_false_r. }
  repeat split.
  - rewrite truthy_testBit by assumption. exact Hs.
  - rewrite truthy_testBit by assumption. exact Hc.
  - rewrite testBit_value, Hs by assumption. reflexivity.
  - rewrite testBit_value, Hc by assumption. reflexivity.
  - rewrite _setBit_testbit by assumption.
    replace (i =? o) with false by (symmetry; apply Z.eqb_neq; assumption).
    apply orb_false_r.
  - rewrite _clearBit_testbit by assumption.
    replace (i =? o) with false by (symmetry; apply Z.eqb_neq; assumption).
    apply andb_true_r.
Qed.

Lemma C8_set_clear_test_bit_witness :
  truthy (testBit (_setBit 0x11 7) 7) = true /\
  truthy (testBit (_clearBit 0x11 4) 4) = false.
Proof.
  split.
  - apply (C8_set_clear_test_bit 0x11 7); lia.
  - apply (C8_set_clear_test_bit 0x11 4); lia.
Defined.

(** C7: for every [v] in [0, 2^32) and every [n] in [0..3], [getByte v n] is
    [(v >> (8 * n)) & 0xFF], and the four bytes shifted back into place add
    up to [v & 0xFFFFFFFF]. *)
Theorem C7_getByte_roundtrip (v : Z) :
  0 <= v < 2 ^ 32 ->
  (forall n, 0 <= n <= 3 -> getByte v n = Z.land (Z.shiftr v (8 * n)) 0xFF) /\
  getByte v 0 + Z.shiftl (getByte v 1) 8 + Z.shiftl (getByte v 2) 16
    + Z.shiftl (getByte v 3) 24 = Z.land v 0xFFFFFFFF.
Proof.
  intros Hv. split; [reflexivity |].
  rewrite !getByte_div_mod by lia.
  rewrite !Z.shiftl_mul_pow2 by lia.
  change 0xFFFFFFFF with (Z.ones 32). rewrite Z.land_ones by lia.
  change (2 ^ (8 * 0)) with 1. change (2 ^ (8 * 1)) with 256.
  change (2 ^ (8 * 2)) with 65536. change (2 ^ (8 * 3)) with 16777216.
  change (2 ^ 8) with 256. change (2 ^ 16) with 65536.
  change (2 ^ 24) with 16777216. change (2 ^ 32) with 4294967296 in *.
  Z.div_mod_to_equations. lia.
Qed.

Lemma C7_getByte_roundtrip_witness :
  getByte 0xDEADBEEF 0 + Z.shiftl (getByte 0xDEADBEEF 1) 8
    + Z.shiftl (getByte 0xDEADBEEF 2) 16 + Z.shiftl (getByte 0xDEADBEEF 3) 24
  = Z.land 0xDEADBEEF 0xFFFFFFFF.
Proof. apply (C7_getByte_roundtrip 0xDEADBEEF). vm_compute. split; congruence. Defined.

(** ** The tick computed on line 165 *)

(** A boolean property checked on [1 .. n] holds on that whole range. *)
Lemma forall_upto (P : Z -> bool) (n : nat) :
  forallb (fun k => P (Z.of_nat k)) (seq 1 n) = true ->
  forall p, 0 < p <= Z.of_nat n -> P p = true.
Proof.
  intros Hall p Hp.
  rewrite forallb_forall in Hall.
  specialize (Hall (Z.to_nat p)).
  rewrite Z2Nat.id in Hall by lia.
  apply Hall, in_seq. lia.
Qed.

(** On every accepted position the binary64 evaluation of line 165 lands on
    the floor of the exact linear map: rounding never carries the float
    across an integer.  Checked on each of the 2999 positions. *)
Lemma pulse_value_floor (position : Z) :
  0 < position < 3000 -> pulse_value position = floor_tick position.
Proof.
  intros Hp. apply Z.eqb_eq.
  apply (forall_upto (fun p => pulse_value p =? floor_tick p) 2999);
    [vm_compute; reflexivity | lia].
Qed.

Lemma floor_tick_bounds (position : Z) :
  0 < position < 3000 -> 101 <= floor_tick position <= 712.
Proof.
  intros Hp. unfold floor_tick, _PULSE_END_LOW, _PULSE_END_HIGH.
  Z.div_mod_to_equations. lia.
Qed.

Lemma pulse_value_bounds (position : Z) :
  0 < position < 3000 -> 101 <= pulse_value position <= 712.
Proof.
  intros Hp. rewrite pulse_value_floor by assumption.
  apply floor_tick_bounds. assumption.
Qed.

(** ** Running the methods *)

Lemma valid_servo_b_true (servo_id : Z) :
  valid_servo_b servo_id = true <-> 0 <= servo_id <= 15.
Proof. unfold valid_servo_b. lia. Qed.

Lemma valid_servo_b_false (servo_id : Z) :
  valid_servo_b servo_id = false <-> ~ 0 <= servo_id <= 15.
Proof. unfold valid_servo_b. lia. Qed.

Section Runs.
Context {D : Type} `{I2CDevice D}.
Implicit Types (w : world D) (self : pca9685).

Lemma _valid_servo_ok servo_id w :
  0 <= servo_id <= 15 -> PCA9685._valid_servo servo_id w = (Ok tt, w).
Proof.
  intros Hc. unfold PCA9685._valid_servo.
  fold (valid_servo_b servo_id).
  apply valid_servo_b_true in Hc. rewrite Hc. reflexivity.
Qed.

Lemma _valid_servo_raises servo_id w :
  ~ 0 <= servo_id <= 15 ->
  PCA9685._valid_servo servo_id w = (Raise InvalidChannel, w).
Proof.
  intros Hc. unfold PCA9685._valid_servo.
  fold (valid_servo_b servo_id).
  apply valid_servo_b_false in Hc. rewrite Hc. reflexivity.
Qed.

Lemma transaction_run msgs w :
  transaction msgs w =
  (Ok (snd (transact (bus w) msgs)),
   World (fst (transact (bus w) msgs)) (trace w ++ [EvTransaction msgs])).
Proof. unfold transaction. destruct (transact (bus w) msgs). reflexivity. Qed.

(** One step of a run: rewrite the calls whose outcome is known, then let the
    binds reduce. *)
Ltac run_step :=
  progress (rewrite ?_valid_servo_ok, ?transaction_run by assumption;
            cbn beta iota zeta).

(** A call with a valid channel and an accepted position: one transaction
    carrying the two messages, and nothing else. *)
Lemma set_position_run self servo_id position w :
  0 <= servo_id <= 15 -> 0 < position < 3000 ->
  PCA9685.set_position self servo_id position w =
  (Ok tt,
   let msgs := off_messages (ADDRESS self) servo_id (pulse_value position) in
   World (fst (transact (bus w) msgs)) (trace w ++ [EvTransaction msgs])).
Proof.
  intros Hc Hp.
  unfold PCA9685.set_position, PCA9685.SERVO_OFF_LOW, PCA9685.SERVO_OFF_HIGH.
  unfold bind, ret. run_step.
  replace ((position >? 0) && (position <? 3000)) with true by lia.
  cbn [negb]. repeat run_step. reflexivity.
Qed.

Lemma set_position_bad_channel self servo_id position w :
  ~ 0 <= servo_id <= 15 ->
  PCA9685.set_position self servo_id position w = (Raise InvalidChannel, w).
Proof.
  intros Hc. unfold PCA9685.set_position, bind.
  rewrite _valid_servo_raises by assumption. reflexivity.
Qed.

Lemma set_position_bad_position self servo_id position w :
  0 <= servo_id <= 15 -> ~ 0 < position < 3000 ->
  PCA9685.set_position self servo_id position w = (Raise InvalidPosition, w).
Proof.
  intros Hc Hp. unfold PCA9685.set_position, bind.
  rewrite _valid_servo_ok by assumption.
  replace ((position >? 0) && (position <? 3000)) with false by lia.
  reflexivity.
Qed.

End Runs.

(** ** The register file under [set_position] *)

Lemma chip_off_messages (c : chip) (address servo_id value : Z) :
  transact c (off_messages address servo_id value) =
  (Chip (<[0x09 + 4 * servo_id := getByte value 1]>
           (<[0x08 + 4 * servo_id := getByte value 0]> (regs c)))
        (0x09 + 4 * servo_id),
   []).
Proof. reflexivity. Qed.

(** ** Claims on [set_position] and the channel registers *)

(** C1 (as amended): for every channel in [0..15] and every position with
    [0 < position < 3000], [set_position] computes the off-tick as the linear
    map [305 + (position - 1000) / 1000 * (509 - 305)] cut down to an integer
    by [int], that is its floor, not its nearest integer; the two bytes of
    this tick are what goes to the bus.  Positions 1000, 1500 and 2000 give
    305, 407 and 509, and positions outside [1000..2000] follow the same line
    without clamping (1 gives 101, 2999 gives 712). *)
Theorem C1_tick_is_floor_of_linear_map
    {D : Type} `{I2CDevice D} (self : pca9685) (servo_id position : Z)
    (w : world D) :
  0 <= servo_id <= 15 -> 0 < position < 3000 ->
  let exact_times_1000 :=
    _PULSE_END_LOW * 1000
    + (position - 1000) * (_PULSE_END_HIGH - _PULSE_END_LOW) in
  let tick := pulse_value position in
  (_PULSE_END_LOW = 305 /\ _PULSE_END_HIGH = 509) /\
  tick = exact_times_1000 / 1000 /\
  (1000 * tick <= exact_times_1000 < 1000 * (tick + 1)) /\
  (exists w',
     PCA9685.set_position self servo_id position w = (Ok tt, w') /\
     trace w' =
     trace w ++
     [EvTransaction
        [writing_bytes (ADDRESS self) [0x08 + 4 * servo_id; getByte tick 0];
         writing_bytes (ADDRESS self) [0x09 + 4 * servo_id; getByte tick 1]]]) /\
  (pulse_value 1000 = 305 /\ pulse_value 2000 = 509 /\ pulse_value 1500 = 407) /\
  (pulse_value 1 = 101 /\ pulse_value 999 = 304 /\
   pulse_value 2005 = 510 /\ pulse_value 2999 = 712).
Proof.
  intros Hc Hp. cbv zeta.
  assert (Hfloor := pulse_value_floor position Hp).
  unfold floor_tick in Hfloor.
  split; [split; reflexivity |].
  split; [exact Hfloor |].
  split; [| split; [| split]].
  - rewrite Hfloor.
    pose proof (Z.mod_pos_bound
                  (_PULSE_END_LOW * 1000
                   + (position - 1000) * (_PULSE_END_HIGH - _PULSE_END_LOW))
                  1000 ltac:(lia)) as Hm.
    pose proof (Z.div_mod
                  (_PULSE_END_LOW * 1000
                   + (position - 1000) * (_PULSE_END_HIGH - _PULSE_END_LOW))
                  1000 ltac:(lia)) as Hd.
    lia.
  - eexists. split.
    + apply set_position_run; assumption.
    + reflexivity.
  - split; [| split]; vm_compute; reflexivity.
  - split; [| split; [| split]]; vm_compute; reflexivity.
Qed.

Lemma C1_tick_is_floor_of_linear_map_witness :
  pulse_value 1234 = (305 * 1000 + (1234 - 1000) * (509 - 305)) / 1000.
Proof.
  apply (C1_tick_is_floor_of_linear_map (Self 1 64) 7 1234 world_reset); lia.
Defined.

(** C1 as the spec words it fails: at position 1003 the exact value is
    305.612, whose nearest integer is 306, while line 165 yields 305; the
    byte sent to [off_low] of channel 0 is 49, not 50. *)
Lemma C1_counterexample_round :
  0 < 1003 < 3000 /\
  pulse_value 1003 = 305 /\
  spec_tick 1003 = 306 /\
  pulse_value 1003 <> spec_tick 1003 /\
  trace (snd (PCA9685.set_position (Self 1 64) 0 1003 world_reset))
  = [EvTransaction [writing_bytes 64 [8; 49]; writing_bytes 64 [9; 1]]] /\
  getByte (spec_tick 1003) 0 = 50.
Proof.
  split; [lia |].
  split; [vm_compute; reflexivity |].
  split; [vm_compute; reflexivity |].
  split; [vm_compute; discriminate |].
  split; vm_compute; reflexivity.
Qed.

(** C3: a call of [set_position] with a channel outside [0..15] raises the
    channel error, and one with a valid channel and a position not strictly
    between 0 and 3000 raises the position error; either way the world comes
    back as it went in: no transaction in the trace and the device in the
    same state.  The two errors are different exceptions. *)
Theorem C3_set_position_rejects_without_bus_traffic
    {D : Type} `{I2CDevice D} (self : pca9685) (servo_id position : Z)
    (w : world D) :
  (~ 0 <= servo_id <= 15 ->
   PCA9685.set_position self servo_id position w = (Raise InvalidChannel, w)) /\
  (0 <= servo_id <= 15 -> ~ 0 < position < 3000 ->
   PCA9685.set_position self servo_id position w = (Raise InvalidPosition, w)) /\
  InvalidChannel <> InvalidPosition.
Proof.
  split; [| split].
  - apply set_position_bad_channel.
  - apply set_position_bad_position.
  - discriminate.
Qed.

Lemma C3_set_position_rejects_without_bus_traffic_witness :
  PCA9685.set_position (Self 1 64) 16 1500 world_reset
    = (Raise InvalidChannel, world_reset) /\
  PCA9685.set_position (Self 1 64) (-1) 1500 world_reset
    = (Raise InvalidChannel, world_reset) /\
  PCA9685.set_position (Self 1 64) 15 0 world_reset
    = (Raise InvalidPosition, world_reset) /\
  PCA9685.set_position (Self 1 64) 0 3000 world_reset
    = (Raise InvalidPosition, world_reset).
Proof.
  split; [| split; [| split]].
  - apply (C3_set_position_rejects_without_bus_traffic (Self 1 64) 16 1500). lia.
  - apply (C3_set_position_rejects_without_bus_traffic (Self 1 64) (-1) 1500). lia.
  - apply (C3_set_position_rejects_without_bus_traffic (Self 1 64) 15 0); lia.
  - apply (C3_set_position_rejects_without_bus_traffic (Self 1 64) 0 3000); lia.
Defined.

(** C4: for every channel [c] in [0..15] the four register functions return
    [0x06 + 4c], [0x07 + 4c], [0x08 + 4c] and [0x09 + 4c], so each grows by
    exactly 4 from one channel to the next; for every [c] outside [0..15]
    they raise the channel error; in both cases the world is untouched, so no
    transaction is issued. *)
Theorem C4_channel_registers
    {D : Type} `{I2CDevice D} (c : Z) (w : world D) :
  (0 <= c <= 15 ->
   PCA9685.SERVO_ON_LOW c w = (Ok (0x06 + 4 * c), w) /\
   PCA9685.SERVO_ON_HIGH c w = (Ok (0x07 + 4 * c), w) /\
   PCA9685.SERVO_OFF_LOW c w = (Ok (0x08 + 4 * c), w) /\
   PCA9685.SERVO_OFF_HIGH c w = (Ok (0x09 + 4 * c), w)) /\
  (0 <= c < 15 ->
   forall a b,
     (PCA9685.SERVO_ON_LOW c w = (Ok a, w) ->
      PCA9685.SERVO_ON_LOW (c + 1) w = (Ok b, w) -> b = a + 4) /\
     (PCA9685.SERVO_ON_HIGH c w = (Ok a, w) ->
      PCA9685.SERVO_ON_HIGH (c + 1) w = (Ok b, w) -> b = a + 4) /\
     (PCA9685.SERVO_OFF_LOW c w = (Ok a, w) ->
      PCA9685.SERVO_OFF_LOW (c + 1) w = (Ok b, w) -> b = a + 4) /\
     (PCA9685.SERVO_OFF_HIGH c w = (Ok a, w) ->
      PCA9685.SERVO_OFF_HIGH (c + 1) w = (Ok b, w) -> b = a + 4)) /\
  (~ 0 <= c <= 15 ->
   PCA9685.SERVO_ON_LOW c w = (Raise InvalidChannel, w) /\
   PCA9685.SERVO_ON_HIGH c w = (Raise InvalidChannel, w) /\
   PCA9685.SERVO_OFF_LOW c w = (Raise InvalidChannel, w) /\
   PCA9685.SERVO_OFF_HIGH c w = (Raise InvalidChannel, w)).
Proof.
  unfold PCA9685.SERVO_ON_LOW, PCA9685.SERVO_ON_HIGH,
    PCA9685.SERVO_OFF_LOW, PCA9685.SERVO_OFF_HIGH, bind, ret.
  split; [| split].
  - intros Hc. rewrite _valid_servo_ok by assumption. repeat split.
  - intros Hc a b.
    rewrite !_valid_servo_ok by lia.
    repeat split; intros Ha Hb; inversion Ha; inversion Hb; lia.
  - intros Hc. rewrite _valid_servo_raises by assumption. repeat split.
Qed.

Lemma C4_channel_registers_witness :
  PCA9685.SERVO_OFF_LOW 15 world_reset = (Ok 68, world_reset) /\
  PCA9685.SERVO_ON_LOW 16 world_reset = (Raise InvalidChannel, world_reset) /\
  PCA9685.SERVO_ON_HIGH (-1) world_reset = (Raise InvalidChannel, world_reset).
Proof.
  split; [| split].
  - apply (C4_channel_registers 15 world_reset). lia.
  - apply (C4_channel_registers 16 world_reset). lia.
  - apply (C4_channel_registers (-1) world_reset). lia.
Defined.

(** C10: for every position with [0 < position < 3000] the tick computed by
    [set_position] lies in [101..712], both ends being reached, so it fits
    in 12 bits and the byte sent to [off_high] has its upper four bits
    zero. *)
Theorem C10_tick_fits_12_bits
    {D : Type} `{I2CDevice D} (self : pca9685) (servo_id position : Z)
    (w : world D) :
  0 <= servo_id <= 15 -> 0 < position < 3000 ->
  let tick := pulse_value position in
  101 <= tick <= 712 /\
  tick <= 4095 /\
  Z.land (getByte tick 1) 0xF0 = 0 /\
  Z.shiftr tick 12 = 0 /\
  trace (snd (PCA9685.set_position self servo_id position w)) =
  trace w ++
  [EvTransaction
     [writing_bytes (ADDRESS self) [0x08 + 4 * servo_id; getByte tick 0];
      writing_bytes (ADDRESS self) [0x09 + 4 * servo_id; getByte tick 1]]] /\
  pulse_value 1 = 101 /\ pulse_value 2999 = 712.
Proof.
  intros Hc Hp. cbv zeta.
  pose proof (pulse_value_bounds position Hp) as Hb.
  split; [exact Hb |]. split; [lia |].
  split; [| split; [| split; [| split]]].
  - rewrite getByte_div_mod by lia. change (2 ^ (8 * 1)) with 256.
    assert (Hq : 0 <= pulse_value position / 256 <= 2)
      by (Z.div_mod_to_equations; lia).
    rewrite Z.mod_small by lia.
    assert (Hcases : pulse_value position / 256 = 0
                     \/ pulse_value position / 256 = 1
                     \/ pulse_value position / 256 = 2) by lia.
    destruct Hcases as [-> | [-> | ->]]; reflexivity.
  - rewrite Z.shiftr_div_pow2 by lia. apply Z.div_small.
    change (2 ^ 12) with 4096. lia.
  - rewrite set_position_run by assumption. reflexivity.
  - vm_compute. reflexivity.
  - vm_compute. reflexivity.
Qed.

Lemma C10_tick_fits_12_bits_witness :
  101 <= pulse_value 2999 <= 712 /\
  Z.land (getByte (pulse_value 2999) 1) 0xF0 = 0.
Proof.
  pose proof (C10_tick_fits_12_bits (Self 1 64) 15 2999 world_reset
                ltac:(lia) ltac:(lia)) as Hw.
  cbv zeta in Hw. split; apply Hw.
Defined.

(** C9: [set_position] is a function of its arguments alone: for a valid
    channel and position, the call emits the same single event, carrying the
    same two byte values for the same two register addresses, whatever the
    device and whatever happened on the bus before, and calling it twice in
    a row emits that event twice. *)
Theorem C9_set_position_deterministic
    {D1 D2 : Type} `{I2CDevice D1} `{I2CDevice D2}
    (self : pca9685) (servo_id position : Z)
    (w1 : world D1) (w2 : world D2) :
  0 <= servo_id <= 15 -> 0 < position < 3000 ->
  exists off_low low off_high high,
    let ev :=
      EvTransaction [writing_bytes (ADDRESS self) [off_low; low];
                     writing_bytes (ADDRESS self) [off_high; high]] in
    trace (snd (PCA9685.set_position self servo_id position w1))
      = trace w1 ++ [ev] /\
    trace (snd (PCA9685.set_position self servo_id position w2))
      = trace w2 ++ [ev] /\
    (let twice :=
       bind (PCA9685.set_position self servo_id position)
            (fun _ => PCA9685.set_position self servo_id position) in
     fst (twice w1) = Ok tt /\
     trace (snd (twice w1)) = trace w1 ++ [ev; ev]).
Proof.
  intros Hc Hp.
  exists (0x08 + 4 * servo_id), (getByte (pulse_value position) 0),
         (0x09 + 4 * servo_id), (getByte (pulse_value position) 1).
  cbv zeta. unfold bind.
  rewrite !set_position_run by assumption. cbv zeta. cbn [fst snd trace].
  rewrite <- app_assoc. repeat split.
Qed.

Lemma C9_set_position_deterministic_witness :
  exists off_low low off_high high,
    trace (snd (PCA9685.set_position (Self 1 64) 3 1234 world_reset))
    = [EvTransaction [writing_bytes 64 [off_low; low];
                      writing_bytes 64 [off_high; high]]].
Proof.
  destruct (C9_set_position_deterministic (Self 1 64) 3 1234
              world_reset world_reset ltac:(lia) ltac:(lia))
    as (off_low & low & off_high & high & Hev & _).
  exists off_low, low, off_high, high. exact Hev.
Defined.

(** ** Register access *)

Lemma byte_high_bits (b i : Z) :
  0 <= b < 256 -> 8 <= i -> Z.testbit b i = false.
Proof.
  intros Hb Hi. rewrite <- (Z.mod_small b 256) by assumption.
  change 256 with (2 ^ 8). apply Z.mod_pow2_bits_high. lia.
Qed.

Lemma getByte_0_testbit (v i : Z) :
  0 <= i -> Z.testbit (getByte v 0) i = Z.testbit v i && (i <? 8).
Proof.
  intros Hi. unfold getByte. change (8 * 0) with 0.
  rewrite Z.shiftr_0_r, Z.land_spec. change 255 with (Z.ones 8).
  rewrite Z.testbit_ones_nonneg by lia. reflexivity.
Qed.

(** Setting or clearing one of the bits [0..7] of a byte gives a byte, which
    [_setRegister] then sends unchanged. *)
Lemma getByte_0_setBit (b o : Z) :
  0 <= b < 256 -> 0 <= o <= 7 -> getByte (_setBit b o) 0 = _setBit b o.
Proof.
  intros Hb Ho. apply Z.bits_inj'. intros i Hi.
  rewrite getByte_0_testbit, _setBit_testbit by lia.
  destruct (Z.ltb_spec i 8) as [Hlt | Hge]; [apply andb_true_r |].
  rewrite andb_false_r, (byte_high_bits b i) by assumption.
  symmetry. apply Z.eqb_neq. lia.
Qed.

Lemma getByte_0_clearBit (b o : Z) :
  0 <= b < 256 -> 0 <= o <= 7 -> getByte (_clearBit b o) 0 = _clearBit b o.
Proof.
  intros Hb Ho. apply Z.bits_inj'. intros i Hi.
  rewrite getByte_0_testbit, _clearBit_testbit by lia.
  destruct (Z.ltb_spec i 8) as [Hlt | Hge]; [apply andb_true_r |].
  rewrite andb_false_r, (byte_high_bits b i) by assumption. reflexivity.
Qed.

Lemma REGISTERS_mode1 : PCA9685.REGISTERS !! "mode1"%string = Some 0x00.
Proof. vm_compute. reflexivity. Qed.

Lemma MODE1_BITS_sleep : PCA9685.MODE1_BITS !! "sleep"%string = Some 4.
Proof. vm_compute. reflexivity. Qed.

Lemma dict_get_some {D : Type} (d : gmap string Z) (key : string) (v : Z)
    (w : world D) :
  d !! key = Some v -> dict_get d key w = (Ok v, w).
Proof. intros Hk. unfold dict_get. rewrite Hk. reflexivity. Qed.

Section RegisterAccess.
Context {D : Type} `{I2CDevice D}.
Implicit Types (w : world D) (self : pca9685).

Lemma _setRegister_run self register value w :
  PCA9685._setRegister self register value w =
  (Ok tt,
   let msgs := write_messages (ADDRESS self) register (getByte value 0) in
   World (fst (transact (bus w) msgs)) (trace w ++ [EvTransaction msgs])).
Proof.
  unfold PCA9685._setRegister, bind, ret.
  rewrite transaction_run. reflexivity.
Qed.

Lemma _getRegister_run self register w b rest more :
  snd (transact (bus w) (read_messages (ADDRESS self) register))
    = (b :: rest) :: more ->
  PCA9685._getRegister self register w =
  (Ok b,
   let msgs := read_messages (ADDRESS self) register in
   World (fst (transact (bus w) msgs)) (trace w ++ [EvTransaction msgs])).
Proof.
  intros Hread. unfold PCA9685._getRegister, bind, ret.
  rewrite transaction_run. cbn beta iota zeta.
  unfold read_messages in Hread. rewrite Hread. reflexivity.
Qed.

(** The read-modify-write of [_setBit], for a device that answers the read
    with [b]. *)
Lemma _setBit_run self register bit w b rest more :
  snd (transact (bus w) (read_messages (ADDRESS self) register))
    = (b :: rest) :: more ->
  PCA9685._setBit self register bit w =
  (Ok tt,
   let rd := read_messages (ADDRESS self) register in
   let wr := write_messages (ADDRESS self) register
               (getByte (_setBit b bit) 0) in
   World (fst (transact (fst (transact (bus w) rd)) wr))
         (trace w ++ [EvTransaction rd; EvTransaction wr])).
Proof.
  intros Hread. unfold PCA9685._setBit, bind.
  rewrite (_getRegister_run _ _ _ _ _ _ Hread). cbn beta iota zeta.
  rewrite _setRegister_run. cbn beta iota zeta. cbn [bus trace].
  rewrite <- app_assoc. reflexivity.
Qed.

End RegisterAccess.

(** C6: [__del__] reads [mode1], and for every byte [b] the device answers
    with, writes back [b] with bit 4 (sleep) set and every other bit as it
    was, then closes the bus; when the bit was 0 the value written is
    [b + 16]. *)
Theorem C6_del_sets_sleep_bit
    {D : Type} `{I2CDevice D} (self : pca9685) (w : world D)
    (b : Z) (rest : list Z) (more : list (list Z)) :
  snd (transact (bus w) [writing_bytes (ADDRESS self) [0x00];
                         reading (ADDRESS self) 1])
    = (b :: rest) :: more ->
  0 <= b < 256 ->
  exists written w',
    PCA9685.__del__ self w = (Ok tt, w') /\
    trace w' =
    trace w ++
    [EvTransaction [writing_bytes (ADDRESS self) [0x00];
                    reading (ADDRESS self) 1];
     EvTransaction [writing_bytes (ADDRESS self) [0x00; written]];
     EvClose] /\
    written = _setBit b 4 /\
    Z.testbit written 4 = true /\
    (forall i, 0 <= i -> i <> 4 -> Z.testbit written i = Z.testbit b i) /\
    (Z.testbit b 4 = false -> written = b + 16).
Proof.
  intros Hread Hb.
  exists (_setBit b 4). eexists. split; [| split; [| split; [| split; [| split]]]].
  - unfold PCA9685.__del__, bind.
    rewrite (dict_get_some _ _ _ _ REGISTERS_mode1).
    rewrite (dict_get_some _ _ _ _ MODE1_BITS_sleep).
    rewrite (_setBit_run self 0 4 w b rest more Hread).
    cbv zeta. rewrite getByte_0_setBit by lia. reflexivity.
  - cbn [trace]. rewrite <- app_assoc. reflexivity.
  - reflexivity.
  - rewrite _setBit_testbit, Z.eqb_refl by lia. apply orb_true_r.
  - intros i Hi Hne. rewrite _setBit_testbit by lia.
    replace (i =? 4) with false by (symmetry; apply Z.eqb_neq; assumption).
    apply orb_false_r.
  - intros Hclear. unfold _setBit. cbv zeta.
    change (Z.shiftl 1 4) with 16.
    rewrite <- Z.add_nocarry_lor; [reflexivity |].
    apply Z.bits_inj'. intros i Hi.
    rewrite Z.land_spec, Z.bits_0.
    destruct (Z.eqb_spec i 4) as [-> | Hne].
    + rewrite Hclear. reflexivity.
    + change 16 with (2 ^ 4). rewrite Z.pow2_bits_eqb by lia.
      replace (4 =? i) with false by (symmetry; apply Z.eqb_neq; lia).
      apply andb_false_r.
Qed.

Lemma C6_del_sets_sleep_bit_witness :
  exists written w',
    PCA9685.__del__ (Self 1 64) (World (Chip {[ 0 := 0x21 ]} 0) [])
      = (Ok tt, w') /\
    written = 0x31 /\
    chip_read (bus w') 0 = written.
Proof.
  destruct (C6_del_sets_sleep_bit (Self 1 64) (World (Chip {[ 0 := 0x21 ]} 0) [])
              0x21 [] []) as (written & w' & Hrun & _ & Hval & _).
  - reflexivity.
  - lia.
  - exists written, w'. split; [exact Hrun |]. split; [exact Hval |].
    vm_compute in Hrun. inversion Hrun. subst written. reflexivity.
Defined.

(** ** The register file under the driver *)

Lemma chip_write_messages (c : chip) (address register value : Z) :
  transact c (write_messages address register value) =
  (Chip (<[register := value]> (regs c)) register, []).
Proof. reflexivity. Qed.

Lemma chip_read_messages (c : chip) (address register : Z) :
  transact c (read_messages address register) =
  (Chip (regs c) register, [[chip_read c register]]).
Proof. reflexivity. Qed.

(** C5 (as amended): a successful [set_position] hands the bus one
    transaction made of two separate write messages, each a register address
    followed by one data byte and none a multi-byte burst: the low byte of
    the tick for the channel's off_low register, then the high byte for its
    off_high register.  On the register file these two registers then hold
    the two bytes and every other register is as before, in particular the
    channel's on_low and on_high and the four registers of every other
    channel. *)
Theorem C5_set_position_writes_off_registers_only
    (self : pca9685) (servo_id position : Z) (w : world chip) :
  0 <= servo_id <= 15 -> 0 < position < 3000 ->
  let tick := pulse_value position in
  exists w',
    PCA9685.set_position self servo_id position w = (Ok tt, w') /\
    trace w' =
    trace w ++
    [EvTransaction
       [writing_bytes (ADDRESS self) [0x08 + 4 * servo_id; getByte tick 0];
        writing_bytes (ADDRESS self) [0x09 + 4 * servo_id; getByte tick 1]]] /\
    chip_read (bus w') (0x08 + 4 * servo_id) = getByte tick 0 /\
    chip_read (bus w') (0x09 + 4 * servo_id) = getByte tick 1 /\
    (forall register,
       register <> 0x08 + 4 * servo_id -> register <> 0x09 + 4 * servo_id ->
       regs (bus w') !! register = regs (bus w) !! register) /\
    regs (bus w') !! (0x06 + 4 * servo_id)
      = regs (bus w) !! (0x06 + 4 * servo_id) /\
    regs (bus w') !! (0x07 + 4 * servo_id)
      = regs (bus w) !! (0x07 + 4 * servo_id) /\
    (forall other k,
       other <> servo_id -> 0 <= k <= 3 ->
       regs (bus w') !! (0x06 + 4 * other + k)
         = regs (bus w) !! (0x06 + 4 * other + k)).
Proof.
  intros Hc Hp. cbv zeta. eexists. split.
  - rewrite set_position_run by assumption. cbv zeta.
    rewrite chip_off_messages. cbn [fst]. reflexivity.
  - cbn [trace bus regs]. unfold chip_read. cbn [regs].
    assert (Hframe : forall register,
              register <> 0x08 + 4 * servo_id ->
              register <> 0x09 + 4 * servo_id ->
              <[0x09 + 4 * servo_id := getByte (pulse_value position) 1]>
                (<[0x08 + 4 * servo_id := getByte (pulse_value position) 0]>
                   (regs (bus w))) !! register
              = regs (bus w) !! register).
    { intros register H8 H9. rewrite !lookup_insert_ne by congruence.
      reflexivity. }
    split; [reflexivity |]. split; [| split; [| split; [| split; [| split]]]].
    + rewrite lookup_insert_ne by lia. rewrite lookup_insert_eq. reflexivity.
    + rewrite lookup_insert_eq. reflexivity.
    + exact Hframe.
    + apply Hframe; lia.
    + apply Hframe; lia.
    + intros other k Hother Hk. apply Hframe; lia.
Qed.

Lemma C5_set_position_writes_off_registers_only_witness :
  exists w',
    PCA9685.set_position (Self 1 64) 3 1500 world_reset = (Ok tt, w') /\
    chip_read (bus w') 20 = 151 /\ chip_read (bus w') 21 = 1 /\
    chip_read (bus w') 0 = 17.
Proof.
  destruct (C5_set_position_writes_off_registers_only (Self 1 64) 3 1500
              world_reset ltac:(lia) ltac:(lia))
    as (w' & Hrun & _ & Hlow & Hhigh & Hframe & _).
  exists w'. split; [exact Hrun |]. split; [exact Hlow |].
  split; [exact Hhigh |].
  unfold chip_read. rewrite (Hframe 0) by lia. reflexivity.
Defined.

(** C5 as the spec words it fails: the two writes of [set_position] are not
    two transactions.  For channel 0 and position 1500 the trace holds one
    transaction with both messages, where two calls of [_setRegister] with
    the same registers and bytes leave two. *)
Lemma C5_counterexample_one_transaction :
  trace (snd (PCA9685.set_position (Self 1 64) 0 1500 world_reset))
  = [EvTransaction [writing_bytes 64 [8; 151]; writing_bytes 64 [9; 1]]] /\
  trace (snd (PCA9685.set_position (Self 1 64) 0 1500 world_reset))
  <> [EvTransaction [writing_bytes 64 [8; 151]];
      EvTransaction [writing_bytes 64 [9; 1]]] /\
  trace (snd (bind (PCA9685._setRegister (Self 1 64) 8 151)
                   (fun _ => PCA9685._setRegister (Self 1 64) 9 1)
                   world_reset))
  = [EvTransaction [writing_bytes 64 [8; 151]];
     EvTransaction [writing_bytes 64 [9; 1]]].
Proof.
  split; [vm_compute; reflexivity |].
  split; [vm_compute; discriminate | vm_compute; reflexivity].
Qed.

(** ** Bring-up on the register file *)

Lemma REGISTERS_pre_scale : PCA9685.REGISTERS !! "pre_scale"%string = Some 0xfe.
Proof. vm_compute. reflexivity. Qed.

Lemma REGISTERS_all_on_low : PCA9685.REGISTERS !! "all_on_low"%string = Some 0xfa.
Proof. vm_compute. reflexivity. Qed.

Lemma REGISTERS_all_on_high : PCA9685.REGISTERS !! "all_on_high"%string = Some 0xfb.
Proof. vm_compute. reflexivity. Qed.

Lemma REGISTERS_all_off_low : PCA9685.REGISTERS !! "all_off_low"%string = Some 0xfc.
Proof. vm_compute. reflexivity. Qed.

Lemma REGISTERS_all_off_high : PCA9685.REGISTERS !! "all_off_high"%string = Some 0xfd.
Proof. vm_compute. reflexivity. Qed.

Lemma MODE1_BITS_allcall : PCA9685.MODE1_BITS !! "allcall"%string = Some 0.
Proof. vm_compute. reflexivity. Qed.

Lemma MODE1_BITS_restart : PCA9685.MODE1_BITS !! "restart"%string = Some 7.
Proof. vm_compute. reflexivity. Qed.

Lemma center_value : center = 407.
Proof. vm_compute. reflexivity. Qed.

Lemma chip_setRegister_run (self : pca9685) (register value : Z)
    (c : chip) (t : list event) :
  PCA9685._setRegister self register value (World c t) =
  (Ok tt,
   World (Chip (<[register := getByte value 0]> (regs c)) register)
         (t ++ [EvTransaction
                  (write_messages (ADDRESS self) register (getByte value 0))])).
Proof. rewrite _setRegister_run. reflexivity. Qed.

Lemma chip_getRegister_run (self : pca9685) (register : Z)
    (c : chip) (t : list event) :
  PCA9685._getRegister self register (World c t) =
  (Ok (chip_read c register),
   World (Chip (regs c) register)
         (t ++ [EvTransaction (read_messages (ADDRESS self) register)])).
Proof.
  rewrite (_getRegister_run self register (World c t)
             (chip_read c register) [] []); reflexivity.
Qed.

Lemma chip_setBit_run (self : pca9685) (register bit : Z)
    (c : chip) (t : list event) :
  PCA9685._setBit self register bit (World c t) =
  (Ok tt,
   World (Chip (<[register := getByte (_setBit (chip_read c register) bit) 0]>
                  (regs c)) register)
         (t ++ [EvTransaction (read_messages (ADDRESS self) register)]
            ++ [EvTransaction
                  (write_messages (ADDRESS self) register
                     (getByte (_setBit (chip_read c register) bit) 0))])).
Proof.
  unfold PCA9685._setBit, bind.
  rewrite chip_getRegister_run, chip_setRegister_run. cbn [regs].
  rewrite <- app_assoc. reflexivity.
Qed.

Lemma chip_clearBit_run (self : pca9685) (register bit : Z)
    (c : chip) (t : list event) :
  PCA9685._clearBit self register bit (World c t) =
  (Ok tt,
   World (Chip (<[register := getByte (_clearBit (chip_read c register) bit) 0]>
                  (regs c)) register)
         (t ++ [EvTransaction (read_messages (ADDRESS self) register)]
            ++ [EvTransaction
                  (write_messages (ADDRESS self) register
                     (getByte (_clearBit (chip_read c register) bit) 0))])).
Proof.
  unfold PCA9685._clearBit, bind.
  rewrite chip_getRegister_run, chip_setRegister_run. cbn [regs].
  rewrite <- app_assoc. reflexivity.
Qed.

Lemma emit_run {D : Type} (e : event) (d : D) (t : list event) :
  emit e (World d t) = (Ok tt, World d (t ++ [e])).
Proof. reflexivity. Qed.

(** The whole of [__init__] on the register file, step by step. *)
Lemma chip_init_run (controller address : Z) (c : chip) (t : list event) :
  let self := Self controller address in
  let m1 := getByte (_clearBit (chip_read c 0x00) 0) 0 in
  let m2 := getByte (_clearBit m1 4) 0 in
  let m3 := getByte (_setBit m2 7) 0 in
  PCA9685.__init__ controller address (World c t) =
  (Ok self,
   World
     (Chip (<[0x00 := m3]> (<[0x00 := m2]> (<[0xfd := 1]> (<[0xfc := 151]>
             (<[0xfb := 0]> (<[0xfa := 100]> (<[0x00 := m1]>
                (<[0xfe := 121]> (regs c))))))))) 0x00)
     (t ++
      [EvOpen controller;
       EvTransaction (write_messages address 0xfe 121);
       EvTransaction (read_messages address 0x00);
       EvTransaction (write_messages address 0x00 m1);
       EvTransaction (write_messages address 0xfa 100);
       EvTransaction (write_messages address 0xfb 0);
       EvTransaction (write_messages address 0xfc 151);
       EvTransaction (write_messages address 0xfd 1);
       EvTransaction (read_messages address 0x00);
       EvTransaction (write_messages address 0x00 m2);
       EvSleep 0x1.999999999999ap-4;
       EvTransaction (read_messages address 0x00);
       EvTransaction (write_messages address 0x00 m3);
       EvSleep 0x1.999999999999ap-4])).
Proof.
  cbv zeta. unfold PCA9685.__init__, I2CMaster, time_sleep, bind, ret.
  rewrite emit_run.
  rewrite (dict_get_some _ _ _ _ REGISTERS_pre_scale), chip_setRegister_run.
  rewrite (dict_get_some _ _ _ _ REGISTERS_mode1).
  rewrite (dict_get_some _ _ _ _ MODE1_BITS_allcall), chip_clearBit_run.
  rewrite (dict_get_some _ _ _ _ REGISTERS_all_on_low), chip_setRegister_run.
  rewrite (dict_get_some _ _ _ _ REGISTERS_all_on_high), chip_setRegister_run.
  rewrite (dict_get_some _ _ _ _ REGISTERS_all_off_low), chip_setRegister_run.
  rewrite (dict_get_some _ _ _ _ REGISTERS_all_off_high), chip_setRegister_run.
  rewrite (dict_get_some _ _ _ _ REGISTERS_mode1).
  rewrite (dict_get_some _ _ _ _ MODE1_BITS_sleep), chip_clearBit_run.
  rewrite emit_run.
  rewrite (dict_get_some _ _ _ _ REGISTERS_mode1).
  rewrite (dict_get_some _ _ _ _ MODE1_BITS_restart), chip_setBit_run.
  rewrite emit_run.
  cbn [regs ADDRESS]. unfold chip_read. cbn [regs].
  rewrite center_value.
  change (getByte _PRESCALE 0) with 121.
  change (getByte (getByte _PULSE_START 0) 0) with 100.
  change (getByte (getByte _PULSE_START 1) 0) with 0.
  change (getByte (getByte 407 0) 0) with 151.
  change (getByte (getByte 407 1) 0) with 1.
  repeat first [rewrite lookup_insert_eq | rewrite lookup_insert_ne by lia].
  cbn [default from_option].
  rewrite <- !app_assoc. reflexivity.
Qed.

(** C2: [__init__] opens the bus and then performs, in this order and with
    nothing else in between: (1) write 121 to pre_scale; (2) read mode1 and
    write it back with bit 0 (allcall) cleared; (3) write 100 as low byte
    100 and high byte 0 to all_on_low and all_on_high; (4) write the
    midpoint 407 of 305 and 509 as low byte 151 and high byte 1 to
    all_off_low and all_off_high; (5) read mode1 and write it back with
    bit 4 (sleep) cleared, then sleep 0.1 s; (6) read mode1 and write it back
    with bit 7 (restart) set, then sleep 0.1 s.  Exactly two sleeps occur,
    the call returns the driver, and on the register file only these six
    registers have changed. *)
Theorem C2_init_sequence (controller address : Z) (w : world chip) :
  let b0 := chip_read (bus w) 0x00 in
  let m1 := getByte (_clearBit b0 0) 0 in
  let m2 := getByte (_clearBit m1 4) 0 in
  let m3 := getByte (_setBit m2 7) 0 in
  let read_mode1 :=
    EvTransaction [writing_bytes address [0x00]; reading address 1] in
  let write := fun register value =>
    EvTransaction [writing_bytes address [register; value]] in
  let events :=
    [EvOpen controller;
     write 0xfe 121;
     read_mode1; write 0x00 m1;
     write 0xfa 100; write 0xfb 0;
     write 0xfc 151; write 0xfd 1;
     read_mode1; write 0x00 m2; EvSleep 0x1.999999999999ap-4;
     read_mode1; write 0x00 m3; EvSleep 0x1.999999999999ap-4] in
  exists w',
    PCA9685.__init__ controller address w
      = (Ok (Self controller address), w') /\
    trace w' = trace w ++ events /\
    (_PRESCALE = 121 /\ getByte _PULSE_START 0 = 100 /\
     getByte _PULSE_START 1 = 0 /\
     center = 407 /\ 2 * center = _PULSE_END_LOW + _PULSE_END_HIGH /\
     getByte center 0 = 151 /\ getByte center 1 = 1) /\
    (Z.testbit m1 0 = false /\
     m2 = _clearBit m1 4 /\ Z.testbit m2 4 = false /\
     m3 = _setBit m2 7 /\ Z.testbit m3 7 = true) /\
    (0 <= b0 < 256 -> m1 = _clearBit b0 0) /\
    (length (List.filter is_sleep events) = 2%nat /\
     int_of_float (PrimFloat.mul 0x1.999999999999ap-4 1000) = 100) /\
    (chip_read (bus w') 0xfe = 121 /\
     chip_read (bus w') 0xfa = 100 /\ chip_read (bus w') 0xfb = 0 /\
     chip_read (bus w') 0xfc = 151 /\ chip_read (bus w') 0xfd = 1 /\
     chip_read (bus w') 0x00 = m3) /\
    (forall register,
       register <> 0x00 -> register <> 0xfa -> register <> 0xfb ->
       register <> 0xfc -> register <> 0xfd -> register <> 0xfe ->
       regs (bus w') !! register = regs (bus w) !! register).
Proof.
  destruct w as [c t]. cbv zeta. cbn [bus trace].
  set (m1 := getByte (_clearBit (chip_read c 0) 0) 0).
  set (m2 := getByte (_clearBit m1 4) 0).
  set (m3 := getByte (_setBit m2 7) 0).
  assert (Hm1 : 0 <= m1 < 256) by apply getByte_range.
  assert (Hm2 : m2 = _clearBit m1 4) by (apply getByte_0_clearBit; lia).
  assert (Hm2r : 0 <= m2 < 256) by apply getByte_range.
  assert (Hm3 : m3 = _setBit m2 7) by (apply getByte_0_setBit; lia).
  eexists. split; [apply chip_init_run |].
  split; [reflexivity |].
  split.
  { split; [reflexivity |]. split; [reflexivity |]. split; [reflexivity |].
    rewrite center_value. repeat split. }
  split.
  { split.
    { unfold m1. rewrite getByte_0_testbit, _clearBit_testbit by lia.
      cbn. rewrite andb_false_r. reflexivity. }
    split; [exact Hm2 |]. split.
    { rewrite Hm2, _clearBit_testbit by lia. cbn. apply andb_false_r. }
    split; [exact Hm3 |].
    rewrite Hm3, _setBit_testbit by lia. cbn. apply orb_true_r. }
  split.
  { intros Hb0. apply getByte_0_clearBit; lia. }
  split.
  { split; [reflexivity | vm_compute; reflexivity]. }
  cbn [bus regs]. unfold chip_read. cbn [regs].
  split.
  { repeat first [rewrite lookup_insert_eq | rewrite lookup_insert_ne by lia].
    repeat split. }
  intros register H0 Ha Hb Hc Hd He.
  rewrite !lookup_insert_ne by congruence. reflexivity.
Qed.

Lemma C2_init_sequence_witness :
  exists w',
    PCA9685.__init__ 1 64 world_reset = (Ok (Self 1 64), w') /\
    trace w' =
    [EvOpen 1;
     EvTransaction [writing_bytes 64 [254; 121]];
     EvTransaction [writing_bytes 64 [0]; reading 64 1];
     EvTransaction [writing_bytes 64 [0; 16]];
     EvTransaction [writing_bytes 64 [250; 100]];
     EvTransaction [writing_bytes 64 [251; 0]];
     EvTransaction [writing_bytes 64 [252; 151]];
     EvTransaction [writing_bytes 64 [253; 1]];
     EvTransaction [writing_bytes 64 [0]; reading 64 1];
     EvTransaction [writing_bytes 64 [0; 0]];
     EvSleep 0x1.999999999999ap-4;
     EvTransaction [writing_bytes 64 [0]; reading 64 1];
     EvTransaction [writing_bytes 64 [0; 128]];
     EvSleep 0x1.999999999999ap-4] /\
    getByte (_clearBit 17 0) 0 = _clearBit 17 0.
Proof.
  destruct (C2_init_sequence 1 64 world_reset)
    as (w' & Hrun & Htrace & _ & _ & Hbyte & _).
  exists w'. split; [exact Hrun |]. split; [exact Htrace |].
  apply Hbyte. vm_compute. split; congruence.
Defined.

(** * Further properties of the helpers and of the driver *)

(** ** Bit helpers on arbitrary integers *)

Lemma bits_eq_nonneg (a b : Z) :
  (forall i, 0 <= i -> Z.testbit a i = Z.testbit b i) -> a = b.
Proof. apply Z.bits_inj'. Qed.

(** X1: for every integer [v], negative ones included, and every offset
    [o >= 0]: setting a bit twice is setting it once, clearing twice is
    clearing once, and the later of a set and a clear of the same bit wins. *)
Theorem X1_set_clear_same_bit (v o : Z) :
  0 <= o ->
  _setBit (_setBit v o) o = _setBit v o /\
  _clearBit (_clearBit v o) o = _clearBit v o /\
  _clearBit (_setBit v o) o = _clearBit v o /\
  _setBit (_clearBit v o) o = _setBit v o.
Proof.
  intros Ho.
  split; [| split; [| split]]; apply bits_eq_nonneg; intros i Hi;
    repeat first [rewrite _setBit_testbit by assumption
                 | rewrite _clearBit_testbit by assumption];
    destruct (Z.testbit v i), (i =? o); reflexivity.
Qed.

Lemma X1_set_clear_same_bit_witness :
  _clearBit (_setBit (-3) 5) 5 = _clearBit (-3) 5.
Proof. apply (X1_set_clear_same_bit (-3) 5). lia. Defined.

(** X2: operations on two different bits do not interfere: for offsets
    [o1 <> o2], both non-negative, sets commute, clears commute, a set
    commutes with a clear, and [testBit] at [o2] does not see a set or a
    clear at [o1]. *)
Theorem X2_distinct_bits_independent (v o1 o2 : Z) :
  0 <= o1 -> 0 <= o2 -> o1 <> o2 ->
  _setBit (_setBit v o1) o2 = _setBit (_setBit v o2) o1 /\
  _clearBit (_clearBit v o1) o2 = _clearBit (_clearBit v o2) o1 /\
  _setBit (_clearBit v o1) o2 = _clearBit (_setBit v o2) o1 /\
  testBit (_setBit v o1) o2 = testBit v o2 /\
  testBit (_clearBit v o1) o2 = testBit v o2.
Proof.
  intros H1 H2 Hne.
  split; [| split; [| split; [| split]]]; apply bits_eq_nonneg; intros i Hi;
    repeat first [rewrite testBit_testbit by assumption
                 | rewrite _setBit_testbit by assumption
                 | rewrite _clearBit_testbit by assumption];
    destruct (Z.eqb_spec i o1), (Z.eqb_spec i o2); try lia;
    destruct (Z.testbit v i); reflexivity.
Qed.

Lemma X2_distinct_bits_independent_witness :
  _setBit (_clearBit 0x11 4) 7 = _clearBit (_setBit 0x11 7) 4.
Proof. apply (X2_distinct_bits_independent 0x11 4 7); lia. Defined.

(** X3: [testBit] returns the mask [1 << offset] when the bit is set and [0]
    when it is clear, for every integer and every offset [>= 0]; so its
    result is never negative, is true as a Python condition exactly when the
    bit is set, and equals [1] only for offset 0. *)
Theorem X3_testBit_is_mask_or_zero (v o : Z) :
  0 <= o ->
  testBit v o = (if Z.testbit v o then 2 ^ o else 0) /\
  truthy (testBit v o) = Z.testbit v o /\
  0 <= testBit v o /\
  (testBit v o = 1 -> o = 0).
Proof.
  intros Ho.
  pose proof (testBit_value v o Ho) as Hv. rewrite Z.shiftl_1_l in Hv.
  split; [exact Hv |]. split; [apply truthy_testBit; assumption |].
  rewrite Hv. pose proof (Z.pow_pos_nonneg 2 o ltac:(lia) Ho) as Hpos.
  split.
  - destruct (Z.testbit v o); lia.
  - destruct (Z.testbit v o); [| lia].
    intros H1. destruct (Z.eq_dec o 0) as [E | E]; [exact E |].
    pose proof (Z.pow_gt_1 2 o ltac:(lia)) as [Hgt _].
    specialize (Hgt ltac:(lia)). lia.
Qed.

Lemma X3_testBit_is_mask_or_zero_witness :
  testBit (-1) 7 = 128 /\ truthy (testBit 0x6f 4) = false.
Proof.
  split.
  - apply (X3_testBit_is_mask_or_zero (-1) 7). lia.
  - apply (X3_testBit_is_mask_or_zero 0x6f 4). lia.
Defined.

(** X4: [getByte] always yields a byte, for negative values too (Python's
    shift is arithmetic), and only sees its value modulo [256 ^ (n + 1)]:
    adding any multiple of that power changes nothing.  In particular
    [getByte v 0] drops everything above the low eight bits. *)
Theorem X4_getByte_is_a_byte (v n k : Z) :
  0 <= n ->
  0 <= getByte v n <= 255 /\
  getByte (v + k * 256 ^ (n + 1)) n = getByte v n /\
  getByte (getByte v n) 0 = getByte v n /\
  (v < 0 -> - 256 ^ n <= v -> getByte v n = 255).
Proof.
  intros Hn.
  pose proof (getByte_range v n) as Hr.
  assert (Hpow : 256 ^ (n + 1) = 2 ^ (8 * n) * 256).
  { rewrite Z.pow_add_r by lia. change 256 with (2 ^ 8) at 1.
    rewrite <- Z.pow_mul_r by lia. reflexivity. }
  assert (Hpos : 0 < 2 ^ (8 * n)) by (apply Z.pow_pos_nonneg; lia).
  split; [lia |]. split; [| split].
  - rewrite !getByte_div_mod by assumption. rewrite Hpow.
    replace (v + k * (2 ^ (8 * n) * 256))
      with (v + (k * 256) * 2 ^ (8 * n)) by ring.
    rewrite Z.div_add by lia.
    rewrite Z.mod_add by lia. reflexivity.
  - rewrite (getByte_div_mod (getByte v n) 0) by lia.
    change (2 ^ (8 * 0)) with 1. rewrite Z.div_1_r.
    apply Z.mod_small. lia.
  - intros Hneg Hlow. rewrite getByte_div_mod by assumption.
    assert (H256 : 256 ^ n = 2 ^ (8 * n)).
    { change 256 with (2 ^ 8). rewrite <- Z.pow_mul_r by lia. reflexivity. }
    rewrite H256 in Hlow.
    assert (Hq : v / 2 ^ (8 * n) = -1).
    { symmetry. apply (Z.div_unique v (2 ^ (8 * n)) (-1) (v + 2 ^ (8 * n)));
        [left; lia | ring]. }
    rewrite Hq. reflexivity.
Qed.

Lemma X4_getByte_is_a_byte_witness :
  getByte (407 + 3 * 256 ^ (1 + 1)) 1 = getByte 407 1 /\
  getByte (-200) 1 = 255.
Proof.
  split.
  - apply (X4_getByte_is_a_byte 407 1 3). lia.
  - apply (X4_getByte_is_a_byte (-200) 1 0); [lia | lia | vm_compute; congruence].
Defined.

Lemma _setBit_arith (v o : Z) :
  0 <= o -> _setBit v o = v + (if Z.testbit v o then 0 else 2 ^ o).
Proof.
  intros Ho.
  pose proof (Z.add_lor_land v (Z.shiftl 1 o)) as Hadd.
  fold (_setBit v o) in Hadd.
  change (Z.land v (Z.shiftl 1 o)) with (testBit v o) in Hadd.
  rewrite testBit_value in Hadd by assumption.
  rewrite Z.shiftl_1_l in Hadd.
  destruct (Z.testbit v o); lia.
Qed.

Lemma _clearBit_arith (v o : Z) :
  0 <= o -> _clearBit v o = v - (if Z.testbit v o then 2 ^ o else 0).
Proof.
  intros Ho.
  pose proof (Z.add_lor_land (testBit v o) (_clearBit v o)) as Hadd.
  assert (Hlor : Z.lor (testBit v o) (_clearBit v o) = v).
  { apply bits_eq_nonneg. intros i Hi.
    rewrite Z.lor_spec, testBit_testbit, _clearBit_testbit by assumption.
    destruct (Z.testbit v i), (i =? o); reflexivity. }
  assert (Hland : Z.land (testBit v o) (_clearBit v o) = 0).
  { apply bits_eq_nonneg. intros i Hi.
    rewrite Z.land_spec, testBit_testbit, _clearBit_testbit, Z.bits_0
      by assumption.
    destruct (Z.testbit v i), (i =? o); reflexivity. }
  rewrite Hlor, Hland, testBit_value in Hadd by assumption.
  rewrite Z.shiftl_1_l in Hadd.
  destruct (Z.testbit v o); lia.
Qed.

(** X5: in arithmetic, for every integer [v] and offset [o >= 0], [_setBit]
    adds [2 ^ o] when the bit was clear and [_clearBit] subtracts it when
    the bit was set, and both leave [v] alone otherwise.  So a byte stays a
    byte for offsets in [0..7], and the [getByte (..., 0)] of [_setRegister]
    sends the result unchanged. *)
Theorem X5_set_clear_arithmetic (v o : Z) :
  0 <= o ->
  _setBit v o = v + (if Z.testbit v o then 0 else 2 ^ o) /\
  _clearBit v o = v - (if Z.testbit v o then 2 ^ o else 0) /\
  (0 <= v < 256 -> o <= 7 ->
   v <= _setBit v o < 256 /\ 0 <= _clearBit v o <= v /\
   getByte (_setBit v o) 0 = _setBit v o /\
   getByte (_clearBit v o) 0 = _clearBit v o).
Proof.
  intros Ho.
  pose proof (_setBit_arith v o Ho) as Hs.
  pose proof (_clearBit_arith v o Ho) as Hc.
  split; [exact Hs |]. split; [exact Hc |].
  intros Hb Ho7.
  pose proof (getByte_0_setBit v o Hb ltac:(lia)) as Hsb.
  pose proof (getByte_0_clearBit v o Hb ltac:(lia)) as Hcb.
  pose proof (getByte_range (_setBit v o) 0) as Hsr.
  pose proof (getByte_range (_clearBit v o) 0) as Hcr.
  rewrite Hsb in Hsr. rewrite Hcb in Hcr.
  pose proof (Z.pow_pos_nonneg 2 o ltac:(lia) Ho) as Hpos.
  split; [| split; [| split; assumption]].
  - split; [| lia]. rewrite Hs. destruct (Z.testbit v o); lia.
  - split; [lia |]. rewrite Hc. destruct (Z.testbit v o); lia.
Qed.

Lemma X5_set_clear_arithmetic_witness :
  _setBit 0x11 7 = 0x11 + 2 ^ 7 /\ 0 <= _clearBit 0x11 4 <= 0x11.
Proof.
  pose proof (X5_set_clear_arithmetic 0x11 7 ltac:(lia)) as (Hs & _ & _).
  pose proof (X5_set_clear_arithmetic 0x11 4 ltac:(lia)) as (_ & _ & Hb).
  split; [exact Hs |].
  apply Hb; lia.
Defined.

(** ** The tick as a function of the position *)

(** X6: over the accepted positions the tick never decreases when the
    position grows, it moves by at most one tick per unit of position, and
    it does move over any five units: neighbouring positions can share a
    tick, positions five apart cannot. *)
Theorem X6_tick_monotone (p q : Z) :
  0 < p -> p <= q -> q < 3000 ->
  pulse_value p <= pulse_value q /\
  (q = p + 1 -> pulse_value q - pulse_value p = 0
                \/ pulse_value q - pulse_value p = 1) /\
  (p + 5 <= q -> pulse_value p < pulse_value q).
Proof.
  intros Hp Hpq Hq.
  rewrite !pulse_value_floor by lia.
  unfold floor_tick, _PULSE_END_LOW, _PULSE_END_HIGH.
  split; [| split].
  - apply Z.div_le_mono; lia.
  - intros ->. Z.div_mod_to_equations. lia.
  - intros H5. Z.div_mod_to_equations. lia.
Qed.

Lemma X6_tick_monotone_witness :
  pulse_value 1003 <= pulse_value 1004 /\ pulse_value 1000 < pulse_value 1005.
Proof.
  pose proof (X6_tick_monotone 1003 1004 ltac:(lia) ltac:(lia) ltac:(lia))
    as (Hle & _).
  pose proof (X6_tick_monotone 1000 1005 ltac:(lia) ltac:(lia) ltac:(lia))
    as (_ & _ & Hlt).
  split; [exact Hle | apply Hlt; lia].
Defined.

Lemma two_bytes_roundtrip (v : Z) :
  0 <= v < 65536 -> getByte v 0 + 256 * getByte v 1 = v.
Proof.
  intros Hv. rewrite !getByte_div_mod by lia.
  change (2 ^ (8 * 0)) with 1. change (2 ^ (8 * 1)) with 256.
  Z.div_mod_to_equations. lia.
Qed.

Lemma chip_set_position_run (self : pca9685) (servo_id position : Z)
    (c : chip) (t : list event) :
  0 <= servo_id <= 15 -> 0 < position < 3000 ->
  PCA9685.set_position self servo_id position (World c t) =
  (Ok tt,
   World (Chip (<[0x09 + 4 * servo_id := getByte (pulse_value position) 1]>
                  (<[0x08 + 4 * servo_id := getByte (pulse_value position) 0]>
                     (regs c)))
               (0x09 + 4 * servo_id))
         (t ++ [EvTransaction
                  (off_messages (ADDRESS self) servo_id (pulse_value position))])).
Proof.
  intros Hc Hp. rewrite set_position_run by assumption. reflexivity.
Qed.

(** X7: the two bytes [set_position] stores are the tick and nothing but the
    tick: read back from the register file, the channel's off_low plus 256
    times its off_high is the floor of the linear map, for every valid
    channel and accepted position. *)
Theorem X7_off_registers_hold_the_tick
    (self : pca9685) (servo_id position : Z) (w : world chip) :
  0 <= servo_id <= 15 -> 0 < position < 3000 ->
  let w' := snd (PCA9685.set_position self servo_id position w) in
  chip_read (bus w') (0x08 + 4 * servo_id)
  + 256 * chip_read (bus w') (0x09 + 4 * servo_id)
  = (305 * 1000 + (position - 1000) * 204) / 1000.
Proof.
  intros Hc Hp. destruct w as [c t]. cbv zeta.
  rewrite chip_set_position_run by assumption.
  cbn [snd bus]. unfold chip_read. cbn [regs].
  rewrite lookup_insert_ne by lia. rewrite !lookup_insert_eq.
  cbn [default from_option]. unfold id.
  pose proof (pulse_value_bounds position Hp) as Hb.
  rewrite two_bytes_roundtrip by lia.
  apply pulse_value_floor. assumption.
Qed.

Lemma X7_off_registers_hold_the_tick_witness :
  let w' := snd (PCA9685.set_position (Self 1 64) 15 2999 world_reset) in
  chip_read (bus w') 68 + 256 * chip_read (bus w') 69
  = (305 * 1000 + (2999 - 1000) * 204) / 1000.
Proof.
  apply (X7_off_registers_hold_the_tick (Self 1 64) 15 2999 world_reset); lia.
Defined.

(** ** Register addresses *)

Lemma channel_register_run {D : Type} `{I2CDevice D}
    (kind : channel_kind) (c : Z) (w : world D) :
  0 <= c <= 15 ->
  channel_register kind c w =
  (Ok (match kind with
       | on_low => 0x06 | on_high => 0x07 | off_low => 0x08 | off_high => 0x09
       end + 4 * c), w).
Proof.
  intros Hc.
  destruct kind; cbn [channel_register];
    unfold PCA9685.SERVO_ON_LOW, PCA9685.SERVO_ON_HIGH,
      PCA9685.SERVO_OFF_LOW, PCA9685.SERVO_OFF_HIGH, bind, ret;
    rewrite _valid_servo_ok by assumption; reflexivity.
Qed.

Lemma REGISTERS_values (name : string) (register : Z) :
  PCA9685.REGISTERS !! name = Some register ->
  0 <= register <= 5 \/ 0xfa <= register <= 0xff.
Proof.
  intros Hlook. unfold PCA9685.REGISTERS in Hlook.
  apply elem_of_list_to_map_2 in Hlook.
  repeat (apply elem_of_cons in Hlook as [Heq | Hlook];
          [inversion Heq; subst; lia |]).
  apply elem_of_nil in Hlook. contradiction.
Qed.

(** X8: the 64 channel registers are pairwise distinct and lie in
    [0x06..0x45]: two of the four methods return the same address only for
    the same kind of register and the same channel, and no channel register
    is one of the control registers listed in [REGISTERS]. *)
Theorem X8_channel_registers_distinct
    {D : Type} `{I2CDevice D} (k1 k2 : channel_kind) (c1 c2 a1 a2 : Z)
    (w : world D) :
  channel_register k1 c1 w = (Ok a1, w) ->
  channel_register k2 c2 w = (Ok a2, w) ->
  (0x06 <= a1 <= 0x45) /\
  (a1 = a2 -> k1 = k2 /\ c1 = c2) /\
  (forall name register,
     PCA9685.REGISTERS !! name = Some register -> register <> a1).
Proof.
  intros H1 H2.
  assert (Hc1 : 0 <= c1 <= 15).
  { destruct (Z_le_dec 0 c1) as [Hl | Hl];
      [destruct (Z_le_dec c1 15) as [Hu | Hu]; [lia |] |];
      exfalso; destruct k1; cbn [channel_register] in H1;
      unfold PCA9685.SERVO_ON_LOW, PCA9685.SERVO_ON_HIGH,
        PCA9685.SERVO_OFF_LOW, PCA9685.SERVO_OFF_HIGH, bind in H1;
      rewrite _valid_servo_raises in H1 by lia; discriminate. }
  assert (Hc2 : 0 <= c2 <= 15).
  { destruct (Z_le_dec 0 c2) as [Hl | Hl];
      [destruct (Z_le_dec c2 15) as [Hu | Hu]; [lia |] |];
      exfalso; destruct k2; cbn [channel_register] in H2;
      unfold PCA9685.SERVO_ON_LOW, PCA9685.SERVO_ON_HIGH,
        PCA9685.SERVO_OFF_LOW, PCA9685.SERVO_OFF_HIGH, bind in H2;
      rewrite _valid_servo_raises in H2 by lia; discriminate. }
  rewrite channel_register_run in H1 by assumption.
  rewrite channel_register_run in H2 by assumption.
  inversion H1 as [Ha1]. inversion H2 as [Ha2]. clear H1 H2.
  split; [destruct k1; lia |]. split.
  - intros Heq. destruct k1, k2; split; try reflexivity; lia.
  - intros name register Hlook.
    apply REGISTERS_values in Hlook. destruct k1; lia.
Qed.

Lemma X8_channel_registers_distinct_witness :
  0x06 <= 0x09 + 4 * 15 <= 0x45.
Proof.
  apply (X8_channel_registers_distinct off_high off_low 15 0
           (0x09 + 4 * 15) (0x08 + 4 * 0) world_reset); reflexivity.
Defined.

(** ** The constant tables *)

Lemma MODE1_BITS_values (name : string) (bit : Z) :
  PCA9685.MODE1_BITS !! name = Some bit ->
  (name, bit) ∈ [("allcall"%string, 0); ("sub3"%string, 1);
                 ("sub2"%string, 2); ("sub1"%string, 3);
                 ("sleep"%string, 4); ("ai"%string, 5);
                 ("extclk"%string, 6); ("restart"%string, 7)].
Proof. intros Hlook. apply elem_of_list_to_map_2 in Hlook. exact Hlook. Qed.

Lemma REGISTERS_entries (name : string) (register : Z) :
  PCA9685.REGISTERS !! name = Some register ->
  (name, register) ∈ [("mode1"%string, 0x00); ("mode2"%string, 0x01);
                      ("subadr1"%string, 0x02); ("subadr2"%string, 0x03);
                      ("subadr3"%string, 0x04); ("allcalladr"%string, 0x05);
                      ("all_on_low"%string, 0xfa); ("all_on_high"%string, 0xfb);
                      ("all_off_low"%string, 0xfc);
                      ("all_off_high"%string, 0xfd);
                      ("pre_scale"%string, 0xfe); ("testmode"%string, 0xff)].
Proof. intros Hlook. apply elem_of_list_to_map_2 in Hlook. exact Hlook. Qed.

(** Case analysis on membership in an explicit list of pairs. *)
Ltac entry_cases H :=
  repeat (apply elem_of_cons in H as [H | H];
          [injection H as -> -> |]);
  [.. | apply elem_of_nil in H; contradiction].

(** X9: the tables name each thing once.  Every address in [REGISTERS] is a
    byte and two different names never share an address; every offset in
    [MODE1_BITS] is a bit of an eight-bit register, in [0..7], two different
    flags never share an offset, and each of the eight bits has a flag. *)
Theorem X9_tables_are_injective :
  (forall n1 n2 r1 r2,
     PCA9685.REGISTERS !! n1 = Some r1 -> PCA9685.REGISTERS !! n2 = Some r2 ->
     0 <= r1 <= 255 /\ (r1 = r2 -> n1 = n2)) /\
  (forall n1 n2 b1 b2,
     PCA9685.MODE1_BITS !! n1 = Some b1 -> PCA9685.MODE1_BITS !! n2 = Some b2 ->
     0 <= b1 <= 7 /\ (b1 = b2 -> n1 = n2)) /\
  (forall bit, 0 <= bit <= 7 ->
     exists name, PCA9685.MODE1_BITS !! name = Some bit).
Proof.
  split; [| split].
  - intros n1 n2 r1 r2 H1 H2.
    apply REGISTERS_entries in H1. apply REGISTERS_entries in H2.
    entry_cases H1; (split; [lia |]); intros Heq;
      entry_cases H2; first [reflexivity | discriminate Heq].
  - intros n1 n2 b1 b2 H1 H2.
    apply MODE1_BITS_values in H1. apply MODE1_BITS_values in H2.
    entry_cases H1; (split; [lia |]); intros Heq;
      entry_cases H2; first [reflexivity | discriminate Heq].
  - intros bit Hbit.
    assert (Hcases : bit = 0 \/ bit = 1 \/ bit = 2 \/ bit = 3 \/ bit = 4
                     \/ bit = 5 \/ bit = 6 \/ bit = 7) by lia.
    destruct Hcases as [-> | [-> | [-> | [-> | [-> | [-> | [-> | ->]]]]]]].
    + exists "allcall"%string. vm_compute. reflexivity.
    + exists "sub3"%string. vm_compute. reflexivity.
    + exists "sub2"%string. vm_compute. reflexivity.
    + exists "sub1"%string. vm_compute. reflexivity.
    + exists "sleep"%string. vm_compute. reflexivity.
    + exists "ai"%string. vm_compute. reflexivity.
    + exists "extclk"%string. vm_compute. reflexivity.
    + exists "restart"%string. vm_compute. reflexivity.
Qed.

Lemma X9_tables_are_injective_witness :
  exists name, PCA9685.MODE1_BITS !! name = Some 4.
Proof.
  destruct X9_tables_are_injective as (_ & _ & Hall).
  apply (Hall 4). lia.
Defined.

(** ** Reading and writing registers *)

Lemma _getRegister_fails {D : Type} `{I2CDevice D}
    (self : pca9685) (register : Z) (w : world D) :
  no_first_byte (snd (transact (bus w) (read_messages (ADDRESS self) register))) ->
  PCA9685._getRegister self register w =
  (Raise IndexError,
   let msgs := read_messages (ADDRESS self) register in
   World (fst (transact (bus w) msgs)) (trace w ++ [EvTransaction msgs])).
Proof.
  intros Hnone. unfold PCA9685._getRegister, bind.
  rewrite transaction_run. cbn beta iota zeta.
  unfold read_messages in Hnone.
  destruct (snd (transact (bus w)
                   [writing_bytes (ADDRESS self) [register];
                    reading (ADDRESS self) 1])) as [| [| b rest] more];
    [reflexivity | reflexivity | contradiction].
Qed.



Lemma chip_getBit_run (self : pca9685) (register bit : Z)
    (c : chip) (t : list event) :
  PCA9685._getBit self register bit (World c t) =
  (Ok (testBit (chip_read c register) bit),
   World (Chip (regs c) register)
         (t ++ [EvTransaction (read_messages (ADDRESS self) register)])).
Proof.
  unfold PCA9685._getBit, bind, ret. rewrite chip_getRegister_run.
  reflexivity.
Qed.

Lemma testBit_getByte_0 (x bit : Z) :
  0 <= bit <= 7 -> testBit (getByte x 0) bit = testBit x bit.
Proof.
  intros Hbit. apply bits_eq_nonneg. intros i Hi.
  rewrite !testBit_testbit, getByte_0_testbit by lia.
  destruct (Z.eqb_spec i bit) as [-> | Hne].
  - replace (bit <? 8) with true by lia. rewrite andb_true_r. reflexivity.
  - rewrite !andb_false_r. reflexivity.
Qed.




(** ** Calls in sequence on the register file *)

(** Two register files are equal when they agree on every register; the
    lookups through a stack of inserts are decided key by key. *)
Ltac regs_eq :=
  apply map_eq; intros ?; rewrite !lookup_insert;
  repeat case_decide; first [reflexivity | lia].

(** X13: on the register file the last position set for a channel is the one
    that stays, whatever was set before, and positions set for two different
    channels do not disturb each other: in either order the registers end up
    the same. *)
Theorem X13_set_position_composes
    (self : pca9685) (c1 c2 p1 p2 : Z) (w : world chip) :
  0 <= c1 <= 15 -> 0 <= c2 <= 15 -> 0 < p1 < 3000 -> 0 < p2 < 3000 ->
  let after := fun c p w0 => snd (PCA9685.set_position self c p w0) in
  (c1 = c2 ->
   regs (bus (after c2 p2 (after c1 p1 w))) = regs (bus (after c2 p2 w))) /\
  (c1 <> c2 ->
   regs (bus (after c2 p2 (after c1 p1 w)))
   = regs (bus (after c1 p1 (after c2 p2 w)))).
Proof.
  intros Hc1 Hc2 Hp1 Hp2. destruct w as [c t]. cbv beta zeta.
  rewrite !(chip_set_position_run self _ _ c t) by assumption.
  cbn [snd]. rewrite !chip_set_position_run by assumption.
  cbn [snd bus regs].
  split.
  - intros ->. regs_eq.
  - intros Hne. regs_eq.
Qed.

Lemma X13_set_position_composes_witness :
  regs (bus (snd (PCA9685.set_position (Self 1 64) 2 1800
                    (snd (PCA9685.set_position (Self 1 64) 5 1200
                            world_reset)))))
  = regs (bus (snd (PCA9685.set_position (Self 1 64) 5 1200
                      (snd (PCA9685.set_position (Self 1 64) 2 1800
                              world_reset))))).
Proof.
  apply (X13_set_position_composes (Self 1 64) 5 2 1200 1800 world_reset); lia.
Defined.

Lemma chip_del_run (self : pca9685) (c : chip) (t : list event) :
  PCA9685.__del__ self (World c t) =
  (Ok tt,
   World (Chip (<[0x00 := getByte (_setBit (chip_read c 0x00) 4) 0]> (regs c))
               0x00)
         (t ++ [EvTransaction (read_messages (ADDRESS self) 0x00);
                EvTransaction
                  (write_messages (ADDRESS self) 0x00
                     (getByte (_setBit (chip_read c 0x00) 4) 0));
                EvClose])).
Proof.
  unfold PCA9685.__del__, close, bind.
  rewrite (dict_get_some _ _ _ _ REGISTERS_mode1).
  rewrite (dict_get_some _ _ _ _ MODE1_BITS_sleep).
  rewrite chip_setBit_run, emit_run.
  rewrite <- !app_assoc. reflexivity.
Qed.

(** X14: bring-up followed by [set_position], on the register file: the
    call succeeds after the two sleeps of [__init__]; the broadcast on
    registers hold the on-tick 100 and the channel's off registers hold the
    tick, which is always later than the on-tick, by 1 to 612 ticks;
    [mode1] is as [__init__] left it. *)
Theorem X14_init_then_set_position
    (controller address servo_id position : Z) (w : world chip) :
  0 <= servo_id <= 15 -> 0 < position < 3000 ->
  let prog := bind (PCA9685.__init__ controller address)
                   (fun self => PCA9685.set_position self servo_id position) in
  let final := bus (snd (prog w)) in
  let on_tick := chip_read final 0xfa + 256 * chip_read final 0xfb in
  let off_tick := chip_read final (0x08 + 4 * servo_id)
                  + 256 * chip_read final (0x09 + 4 * servo_id) in
  fst (prog w) = Ok tt /\
  on_tick = _PULSE_START /\
  off_tick = pulse_value position /\
  1 <= off_tick - on_tick <= 612 /\
  chip_read final 0x00
  = chip_read (bus (snd (PCA9685.__init__ controller address w))) 0x00 /\
  (exists evs,
     trace (snd (prog w)) =
     trace w ++ evs ++
     [EvTransaction (off_messages address servo_id (pulse_value position))] /\
     length (List.filter is_sleep evs) = 2%nat).
Proof.
  intros Hc Hp. destruct w as [c t]. cbv zeta. unfold bind.
  rewrite chip_init_run. cbv zeta.
  rewrite chip_set_position_run by assumption.
  cbn [fst snd bus trace regs ADDRESS]. unfold chip_read. cbn [regs].
  pose proof (pulse_value_bounds position Hp) as Hb.
  pose proof (two_bytes_roundtrip (pulse_value position) ltac:(lia)) as Hrt.
  repeat first [rewrite lookup_insert_eq | rewrite lookup_insert_ne by lia].
  cbn [default from_option]. unfold id, _PULSE_START.
  split; [reflexivity |]. split; [reflexivity |]. split; [exact Hrt |].
  split; [lia |]. split; [reflexivity |].
  eexists. split.
  - rewrite <- app_assoc. reflexivity.
  - reflexivity.
Qed.

Lemma X14_init_then_set_position_witness :
  fst (bind (PCA9685.__init__ 1 64)
            (fun self => PCA9685.set_position self 0 1) world_reset) = Ok tt.
Proof.
  apply (X14_init_then_set_position 1 64 0 1 world_reset); lia.
Defined.

(** X15: bring-up followed by [__del__], on the register file: both succeed,
    the bus is closed last, and [mode1] ends as a byte with allcall (bit 0)
    clear, sleep (bit 4) set again, restart (bit 7) set, and bits 1, 2, 3, 5
    and 6 as they were before [__init__]; the registers written by
    [__init__] keep their values. *)
Theorem X15_init_then_del (controller address : Z) (w : world chip) :
  let prog := bind (PCA9685.__init__ controller address) PCA9685.__del__ in
  let final := bus (snd (prog w)) in
  let mode1 := chip_read final 0x00 in
  fst (prog w) = Ok tt /\
  0 <= mode1 <= 255 /\
  Z.testbit mode1 0 = false /\ Z.testbit mode1 4 = true /\
  Z.testbit mode1 7 = true /\
  (forall i, 0 <= i <= 7 -> i <> 0 -> i <> 4 -> i <> 7 ->
     Z.testbit mode1 i = Z.testbit (chip_read (bus w) 0x00) i) /\
  (chip_read final 0xfe = 121 /\ chip_read final 0xfa = 100 /\
   chip_read final 0xfb = 0 /\ chip_read final 0xfc = 151 /\
   chip_read final 0xfd = 1) /\
  (exists evs, trace (snd (prog w)) = trace w ++ evs ++ [EvClose] /\
               length (List.filter is_sleep evs) = 2%nat).
Proof.
  destruct w as [c t]. cbv zeta. unfold bind.
  rewrite chip_init_run. cbv zeta. rewrite chip_del_run.
  cbn [fst snd bus trace regs ADDRESS]. unfold chip_read. cbn [regs].
  repeat first [rewrite lookup_insert_eq | rewrite lookup_insert_ne by lia].
  set (b0 := default 0 (regs c !! 0)).
  cbn [default from_option]. unfold id.
  split; [reflexivity |].
  split; [pose proof (getByte_range
                        (_setBit (getByte (_setBit (getByte (_clearBit
                           (getByte (_clearBit b0 0) 0) 4) 0) 7) 0) 4) 0); lia |].
  assert (Hbits : forall i, 0 <= i <= 7 ->
            Z.testbit
              (getByte (_setBit (getByte (_setBit (getByte (_clearBit
                 (getByte (_clearBit b0 0) 0) 4) 0) 7) 0) 4) 0) i
            = (((Z.testbit b0 i && negb (i =? 0)) && negb (i =? 4))
               || (i =? 7)) || (i =? 4)).
  { intros i Hi.
    repeat first [rewrite getByte_0_testbit by lia
                 | rewrite _setBit_testbit by lia
                 | rewrite _clearBit_testbit by lia].
    replace (i <? 8) with true by lia. rewrite !andb_true_r. reflexivity. }
  split; [rewrite Hbits by lia; cbn; rewrite andb_false_r; reflexivity |].
  split; [rewrite Hbits by lia; cbn; apply orb_true_r |].
  split; [rewrite Hbits by lia; cbn; rewrite orb_true_r; reflexivity |].
  split.
  { intros i Hi H0 H4 H7. rewrite Hbits by lia.
    replace (i =? 0) with false by lia. replace (i =? 4) with false by lia.
    replace (i =? 7) with false by lia.
    cbn [negb]. rewrite !andb_true_r, !orb_false_r. reflexivity. }
  split.
  { split; [reflexivity |]. split; [reflexivity |]. split; [reflexivity |].
    split; reflexivity. }
  rewrite <- !app_assoc. cbn [app].
  match goal with
  | |- exists evs, t ++ ?l = _ /\ _ => exists (removelast l)
  end.
  split; reflexivity.
Qed.


Lemma X15_init_then_del_witness :
  Z.testbit (chip_read (bus (snd (bind (PCA9685.__init__ 1 64) PCA9685.__del__
                                       world_reset))) 0x00) 5
  = Z.testbit (chip_read (bus world_reset) 0x00) 5.
Proof.
  destruct (X15_init_then_del 1 64 world_reset)
    as (_ & _ & _ & _ & _ & Hkeep & _).
  apply (Hkeep 5); lia.
Defined.

(** ** What reaches the bus *)

Lemma event_ok_write (address register value : Z) :
  0 <= register <= 255 -> 0 <= value <= 255 ->
  event_ok address (EvTransaction (write_messages address register value))
  = true.
Proof.
  intros Hr Hv. unfold event_ok, message_ok.
  cbn [event_messages write_messages forallb message_addr message_bytes].
  rewrite Z.eqb_refl. lia.
Qed.

Lemma event_ok_read (address register : Z) :
  0 <= register <= 255 ->
  event_ok address (EvTransaction (read_messages address register)) = true.
Proof.
  intros Hr. unfold event_ok, message_ok.
  cbn [event_messages read_messages forallb message_addr message_bytes].
  rewrite Z.eqb_refl. lia.
Qed.

Lemma event_ok_off (address servo_id value : Z) :
  0 <= servo_id <= 15 ->
  event_ok address (EvTransaction (off_messages address servo_id value))
  = true.
Proof.
  intros Hc. unfold event_ok, message_ok.
  cbn [event_messages off_messages forallb message_addr message_bytes].
  pose proof (getByte_range value 0). pose proof (getByte_range value 1).
  rewrite Z.eqb_refl. lia.
Qed.

(** Every event of an explicit stretch of trace is well formed. *)
Ltac events_ok :=
  repeat first
    [ apply List.Forall_nil
    | apply List.Forall_cons;
      [ first
          [ apply event_ok_write;
            first [lia
                  | match goal with
                    | |- 0 <= getByte ?x ?n <= 255 =>
                        pose proof (getByte_range x n); lia
                    end]
          | apply event_ok_read; lia
          | reflexivity ]
      | ] ].



(** ** Bring-up: failure and repetition *)

(** X17: when the transport answers the first read of [mode1] with no first
    byte, [__init__] raises [IndexError] right there: the bus was opened and
    pre_scale written, but no driver is returned, nothing more is written,
    no sleep happens and the bus is not closed. *)
Theorem X17_init_aborts_on_failed_read
    {D : Type} `{I2CDevice D} (controller address : Z) (w : world D) :
  let wr := [writing_bytes address [0xfe; 121]] in
  let rd := [writing_bytes address [0x00]; reading address 1] in
  let d1 := fst (transact (bus w) wr) in
  no_first_byte (snd (transact d1 rd)) ->
  PCA9685.__init__ controller address w =
  (Raise IndexError,
   World (fst (transact d1 rd))
         (trace w ++ [EvOpen controller; EvTransaction wr; EvTransaction rd])).
Proof.
  cbv zeta. intros Hnone. destruct w as [d t].
  unfold PCA9685.__init__, I2CMaster, bind, ret. rewrite emit_run.
  rewrite (dict_get_some _ _ _ _ REGISTERS_pre_scale), _setRegister_run.
  cbv zeta. cbn [bus trace ADDRESS].
  rewrite (dict_get_some _ _ _ _ REGISTERS_mode1).
  rewrite (dict_get_some _ _ _ _ MODE1_BITS_allcall).
  unfold PCA9685._clearBit, bind.
  rewrite _getRegister_fails; [| exact Hnone].
  cbv zeta. cbn [bus trace ADDRESS]. rewrite <- !app_assoc. reflexivity.
Qed.

Lemma X17_init_aborts_on_failed_read_witness :
  PCA9685.__init__ 1 64 (World Silent []) =
  (Raise IndexError,
   World Silent
     [EvOpen 1; EvTransaction [writing_bytes 64 [0xfe; 121]];
      EvTransaction [writing_bytes 64 [0x00]; reading 64 1]]).
Proof.
  exact (X17_init_aborts_on_failed_read 1 64 (World Silent []) I).
Defined.

(** What the three read-modify-writes of [__init__] make of [mode1]. *)
Lemma init_mode1_testbit (x i : Z) :
  0 <= i ->
  Z.testbit
    (getByte (_setBit (getByte (_clearBit (getByte (_clearBit x 0) 0) 4) 0) 7) 0)
    i
  = ((Z.testbit x i && negb (i =? 0) && negb (i =? 4)) || (i =? 7)) && (i <? 8).
Proof.
  intros Hi.
  repeat first [rewrite getByte_0_testbit by lia
               | rewrite _setBit_testbit by lia
               | rewrite _clearBit_testbit by lia].
  destruct (Z.testbit x i), (Z.eqb_spec i 0), (Z.eqb_spec i 4),
    (Z.eqb_spec i 7), (Z.ltb_spec i 8); try reflexivity; lia.
Qed.

Lemma init_mode1_idempotent (x : Z) :
  let f := fun y =>
    getByte (_setBit (getByte (_clearBit (getByte (_clearBit y 0) 0) 4) 0) 7) 0 in
  f (f x) = f x.
Proof.
  cbv zeta beta. apply bits_eq_nonneg. intros i Hi.
  rewrite (init_mode1_testbit (getByte _ 0)) by assumption.
  rewrite !init_mode1_testbit by assumption.
  destruct (Z.testbit x i), (Z.eqb_spec i 0), (Z.eqb_spec i 4),
    (Z.eqb_spec i 7), (Z.ltb_spec i 8); try reflexivity; lia.
Qed.

(** X18: bring-up is idempotent on the register file: running [__init__] a
    second time succeeds and leaves every register exactly as the first run
    left it, [mode1] included. *)
Theorem X18_init_twice (controller address : Z) (w : world chip) :
  let once := snd (PCA9685.__init__ controller address w) in
  let twice := snd (PCA9685.__init__ controller address once) in
  fst (PCA9685.__init__ controller address once)
    = Ok (Self controller address) /\
  regs (bus twice) = regs (bus once).
Proof.
  destruct w as [c t]. cbv zeta.
  rewrite (chip_init_run controller address c t). cbv zeta. cbn [snd].
  rewrite chip_init_run. cbv zeta. cbn [fst snd bus regs].
  split; [reflexivity |].
  unfold chip_read. cbn [regs].
  rewrite (lookup_insert_eq _ 0).
  set (b0 := default 0 (regs c !! 0)).
  cbn [default from_option]. unfold id.
  pose proof (init_mode1_idempotent b0) as Hfix.
  cbv zeta beta in Hfix. rewrite Hfix.
  regs_eq.
Qed.
